(** * Background-removal HTTP adapters: a shallow embedding

    The repository holds three FastAPI servers that wrap a segmentation
    model:

    - [bg-removal-server.py]     (module [V1]): rembg, session loaded at
      import time;
    - [bg-removal-server-v2.py]  (module [V2]): rembg, session loaded lazily
      into the global [session];
    - [withoutbg-server.py]      (module [WithoutBG]): withoutBG, model loaded
      lazily into the global [model] by [get_model].

    Every handler is a [try: ... except Exception as e: raise
    HTTPException(500, ...)] block around calls into third-party libraries.
    The handlers are embedded in a state-and-exception monad: the state is
    the process-wide global plus a log of the effectful library calls, and
    the libraries themselves (rembg, withoutBG, httpx, the image codecs of
    Pillow) are the fields of a [World] record.  Written out are Pillow's
    pixel operations used by the compositing block, the decoder behind
    [base64.b64decode], and the latin-1 encoding of header values that
    makes the construction of a [Response] fail. *)

From Stdlib Require Import ZArith List String Ascii Strings.Byte Bool Lia DecimalString.
Import ListNotations.

Local Open Scope string_scope.
Local Open Scope Z_scope.

(** ** Python values *)

Definition bytes := list byte.

(** [len(x)] of a Python sequence. *)
Definition len {A : Type} (l : list A) : Z := Z.of_nat (List.length l).

(** Truth value of an [Optional[List[int]]]: [None] and [[]] are falsy. *)
Definition truthy {A : Type} (o : option (list A)) : bool :=
  match o with
  | Some (_ :: _) => true
  | _ => false
  end.

(** The double-quote character of the [Content-Disposition] f-string. *)
Definition dquote : string := String "034"%char EmptyString.

(** A Python [str] is held as the bytes of its UTF-8 encoding.  A code
    point below 128 is one byte below 128; a code point below 256 is encoded
    with a first byte below 0xC4; every greater code point starts with a
    byte from 0xC4 on. *)
Definition is_ascii (s : string) : bool :=
  forallb (fun c => (N_of_ascii c <? 128)%N) (list_ascii_of_string s).

(** Whether [s.encode("latin-1")] returns. *)
Definition latin1_encodable (s : string) : bool :=
  forallb (fun c => (N_of_ascii c <? 196)%N) (list_ascii_of_string s).

(** A value stored into a C [unsigned char]. *)
Definition unsigned_char (v : Z) : byte :=
  match Byte.of_N (Z.to_N (v mod 256)) with
  | Some b => b
  | None => x00
  end.

(** A non-negative number as [%zd] prints it. *)
Definition decimal (n : Z) : string := NilZero.string_of_uint (N.to_uint (Z.to_N n)).

(** ** Exceptions

    [HTTPException] is FastAPI's; every other exception that can reach a
    handler is raised inside a library and is kept as its class name and
    its [str()]. *)

Inductive exn : Type :=
| HTTPException (status_code : Z) (detail : string)
| Error (class_name : string) (message : string).

Inductive Result (A : Type) : Type :=
| Ok (a : A)
| Raise (e : exn).
Arguments Ok {A} a.
Arguments Raise {A} e.

Definition is_ok {A : Type} (r : Result A) : bool :=
  match r with Ok _ => true | Raise _ => false end.

Definition Result_bind {A B : Type} (r : Result A) (k : A -> Result B) : Result B :=
  match r with
  | Ok a => k a
  | Raise e => Raise e
  end.

Definition Result_map {A B : Type} (f : A -> B) (r : Result A) : Result B :=
  match r with
  | Ok a => Ok (f a)
  | Raise e => Raise e
  end.

(** ** Pillow images

    Only the two modes that the compositing block distinguishes are kept.  A
    pixel is stored as four bands, as Pillow stores both modes in memory; in
    mode [RGB] the fourth band is padding. *)

Module PIL.

Inductive Mode : Type := RGB | RGBA.

Inductive Format : Type := PNG | JPEG.

Definition Pixel : Type := Z * Z * Z * Z.

Definition red (p : Pixel) : Z := let '(r, _, _, _) := p in r.
Definition green (p : Pixel) : Z := let '(_, g, _, _) := p in g.
Definition blue (p : Pixel) : Z := let '(_, _, b, _) := p in b.
Definition alpha (p : Pixel) : Z := let '(_, _, _, a) := p in a.

(** The colour of a pixel, without its fourth band. *)
Definition rgb (p : Pixel) : Z * Z * Z := (red p, green p, blue p).

Record Image : Type := mkImage {
  mode : Mode;
  size : Z * Z;                (* (width, height) *)
  pixels : list Pixel;         (* row-major, width * height entries *)
  format : option Format       (* set by Image.open only *)
}.

Definition width (im : Image) : Z := fst (size im).
Definition height (im : Image) : Z := snd (size im).

(** A bitmap carries one pixel per position. *)
Definition well_formed (im : Image) : Prop :=
  0 <= width im /\ 0 <= height im /\ len (pixels im) = width im * height im.

Definition Mode_eqb (a b : Mode) : bool :=
  match a, b with
  | RGB, RGB | RGBA, RGBA => true
  | _, _ => false
  end.

Definition size_eqb (a b : Z * Z) : bool :=
  (fst a =? fst b) && (snd a =? snd b).

(** [CLIP8] of ImagingUtils.h. *)
Definition CLIP8 (v : Z) : Z :=
  if v <=? 0 then 0 else if v <? 256 then v else 255.

(** Whether a Python int fits a C [int]. *)
Definition fits_c_int (v : Z) : bool :=
  (- 2147483648 <=? v) && (v <=? 2147483647).

(** Whether a Python int fits a C [long long] (and a [long], where that has
    64 bits). *)
Definition fits_c_long_long (v : Z) : bool :=
  (- 9223372036854775808 <=? v) && (v <=? 9223372036854775807).

(** [PyArg_ParseTuple] with the format ["Lii|i"], as [getink] reads a colour
    tuple: the first element into a [long long], the others into an [int]
    by way of a [long]. *)
Definition parse_L (v : Z) : Result Z :=
  if fits_c_long_long v then Ok v
  else Raise (Error "OverflowError" "int too big to convert").

Definition parse_i (v : Z) : Result Z :=
  if negb (fits_c_long_long v) then
    Raise (Error "OverflowError" "Python int too large to convert to C long")
  else if v >? 2147483647 then
    Raise (Error "OverflowError" "signed integer is greater than maximum")
  else if v <? - 2147483648 then
    Raise (Error "OverflowError" "signed integer is less than minimum")
  else Ok v.

(** The canvas of [Image.new]: every pixel is the ink, each band clipped
    to a byte. *)
Definition fill_RGBA (sz : Z * Z) (r g b a : Z) : Image :=
  {| mode := RGBA;
     size := sz;
     pixels := repeat (CLIP8 r, CLIP8 g, CLIP8 b, CLIP8 a) (Z.to_nat (fst sz * snd sz));
     format := None |}.

(** [Image.new('RGBA', size, color)] for a colour tuple, as [getink]
    reads it: the alpha of a tuple of three is 255, and a tuple of one
    stands for its element, an integer whose bytes are the bands from red
    upwards. *)
Definition new_RGBA (sz : Z * Z) (color : list Z) : Result Image :=
  if (fst sz <? 0) || (snd sz <? 0) then
    Raise (Error "ValueError" "Width and height must be >= 0")
  else
    match color with
    | [v] =>
        Result_bind (parse_L v) (fun v =>
          Ok (fill_RGBA sz (v mod 256) (Z.shiftr v 8 mod 256)
                        (Z.shiftr v 16 mod 256) (Z.shiftr v 24 mod 256)))
    | [r; g; b] =>
        Result_bind (parse_L r) (fun r =>
        Result_bind (parse_i g) (fun g =>
        Result_bind (parse_i b) (fun b =>
          Ok (fill_RGBA sz r g b 255))))
    | [r; g; b; a] =>
        Result_bind (parse_L r) (fun r =>
        Result_bind (parse_i g) (fun g =>
        Result_bind (parse_i b) (fun b =>
        Result_bind (parse_i a) (fun a =>
          Ok (fill_RGBA sz r g b a)))))
    | _ => Raise (Error "TypeError" "color must be int, or tuple of one, three or four elements")
    end.

(** [im.convert('RGBA')]: an [RGB] image gains a fully opaque alpha band. *)
Definition convert_RGBA (im : Image) : Image :=
  match mode im with
  | RGBA => {| mode := RGBA; size := size im; pixels := pixels im; format := None |}
  | RGB =>
      {| mode := RGBA;
         size := size im;
         pixels := map (fun p => (red p, green p, blue p, 255)) (pixels im);
         format := None |}
  end.

(** [im.convert('RGB')]: the alpha band is dropped, not blended. *)
Definition convert_RGB (im : Image) : Image :=
  match mode im with
  | RGB => {| mode := RGB; size := size im; pixels := pixels im; format := None |}
  | RGBA =>
      {| mode := RGB;
         size := size im;
         pixels := map (fun p => (red p, green p, blue p, 255)) (pixels im);
         format := None |}
  end.

(** [SHIFTFORDIV255] and the per-pixel body of AlphaComposite.c, with
    [PRECISION_BITS = 7]; [dst] is the pixel below, [src] the pixel above. *)
Definition SHIFTFORDIV255 (a : Z) : Z := Z.shiftr (Z.shiftr a 8 + a) 8.

Definition PRECISION_BITS : Z := 7.

Definition composite_pixel (dst src : Pixel) : Pixel :=
  if alpha src =? 0 then dst
  else
    let blend := alpha dst * (255 - alpha src) in
    let outa255 := alpha src * 255 + blend in
    let coef1 := alpha src * 255 * 255 * Z.shiftl 1 PRECISION_BITS / outa255 in
    let coef2 := 255 * Z.shiftl 1 PRECISION_BITS - coef1 in
    let tmpr := red src * coef1 + red dst * coef2 in
    let tmpg := green src * coef1 + green dst * coef2 in
    let tmpb := blue src * coef1 + blue dst * coef2 in
    (Z.shiftr (SHIFTFORDIV255 (tmpr + Z.shiftl 128 PRECISION_BITS)) PRECISION_BITS,
     Z.shiftr (SHIFTFORDIV255 (tmpg + Z.shiftl 128 PRECISION_BITS)) PRECISION_BITS,
     Z.shiftr (SHIFTFORDIV255 (tmpb + Z.shiftl 128 PRECISION_BITS)) PRECISION_BITS,
     SHIFTFORDIV255 (outa255 + 128)).

Fixpoint composite_pixels (dst src : list Pixel) : list Pixel :=
  match dst, src with
  | d :: dst', s :: src' => composite_pixel d s :: composite_pixels dst' src'
  | _, _ => []
  end.

(** [Image.alpha_composite(im1, im2)]: [im2] over [im1]. *)
Definition alpha_composite (im1 im2 : Image) : Result Image :=
  if negb (Mode_eqb (mode im1) RGBA && Mode_eqb (mode im2) RGBA) then
    Raise (Error "ValueError" "image has wrong mode")
  else if negb (size_eqb (size im1) (size im2)) then
    Raise (Error "ValueError" "images do not match")
  else
    Ok {| mode := RGBA;
          size := size im1;
          pixels := composite_pixels (pixels im1) (pixels im2);
          format := None |}.

End PIL.

(** ** HTTP values *)

(** [fastapi.UploadFile]: the multipart part, with the bytes that
    [await file.read()] returns. *)
Record UploadFile : Type := mkUploadFile {
  filename : string;
  content_type : string;
  read : bytes
}.

(** [fastapi.responses.Response]; its status code is left at the default,
    200. *)
Record Response : Type := mkResponse {
  content : bytes;
  media_type : string;
  headers : list (string * string)
}.

Inductive Json : Type :=
| JString (s : string)
| JBool (b : bool).

Inductive Body : Type :=
| ImageBody (data : bytes)
| JsonDetail (detail : string)          (* {"detail": ...} of an HTTPException *)
| JsonObject (fields : list (string * Json))
| PlainText (text : string).

(** What the client receives. *)
Record HttpReply : Type := mkHttpReply {
  status : Z;
  reply_media_type : string;
  reply_headers : list (string * string);
  body : Body
}.

Module httpx.

Record Response : Type := mkResponse {
  status_code : Z;
  content : bytes
}.

(** [Response.is_success]: the 2xx class. *)
Definition is_success (r : Response) : bool :=
  (200 <=? status_code r) && (status_code r <=? 299).

End httpx.

(** ** base64

    [base64.b64decode(s)] for a [str] argument and the default
    [validate=False], after CPython 3.11 and later: the string must be
    ASCII; [binascii.a2b_base64] then skips every character outside the
    alphabet, stops at a pad that completes a group, and raises only when
    the alphabet characters end in the middle of a group. *)

Module base64.

(** [table_a2b_base64]: the value of an alphabet character. *)
Definition table_a2b_base64 (c : ascii) : option Z :=
  let n := Z.of_N (N_of_ascii c) in
  if (65 <=? n) && (n <=? 90) then Some (n - 65)
  else if (97 <=? n) && (n <=? 122) then Some (n - 71)
  else if (48 <=? n) && (n <=? 57) then Some (n + 4)
  else if n =? 43 then Some 62
  else if n =? 47 then Some 63
  else None.

Definition BASE64_PAD : ascii := "="%char.

(** The loop of [binascii_a2b_base64_impl] with [strict_mode = 0];
    [bin_data] is the output so far, last byte first. *)
Fixpoint a2b_base64_loop (ascii_data : string) (quad_pos leftchar pads : Z)
    (bin_data : bytes) : Result bytes :=
  match ascii_data with
  | EmptyString =>
      if quad_pos =? 0 then Ok (rev bin_data)
      else if quad_pos =? 1 then
        Raise (Error "binascii.Error"
                 ("Invalid base64-encoded string: number of data characters ("
                  ++ decimal (len bin_data / 3 * 4 + 1)
                  ++ ") cannot be 1 more than a multiple of 4"))
      else Raise (Error "binascii.Error" "Incorrect padding")
  | String this_ch rest =>
      if Ascii.eqb this_ch BASE64_PAD then
        if (quad_pos >=? 2) && (quad_pos + (pads + 1) >=? 4) then Ok (rev bin_data)
        else
          a2b_base64_loop rest quad_pos leftchar
                          (if quad_pos >=? 2 then pads + 1 else pads) bin_data
      else
        match table_a2b_base64 this_ch with
        | None => a2b_base64_loop rest quad_pos leftchar pads bin_data
        | Some this_ch =>
            if quad_pos =? 0 then
              a2b_base64_loop rest 1 this_ch 0 bin_data
            else if quad_pos =? 1 then
              a2b_base64_loop rest 2 (Z.land this_ch 15) 0
                (unsigned_char (Z.lor (Z.shiftl leftchar 2) (Z.shiftr this_ch 4))
                   :: bin_data)
            else if quad_pos =? 2 then
              a2b_base64_loop rest 3 (Z.land this_ch 3) 0
                (unsigned_char (Z.lor (Z.shiftl leftchar 4) (Z.shiftr this_ch 2))
                   :: bin_data)
            else
              a2b_base64_loop rest 0 0 0
                (unsigned_char (Z.lor (Z.shiftl leftchar 6) this_ch) :: bin_data)
        end
  end.

Definition a2b_base64 (data : string) : Result bytes := a2b_base64_loop data 0 0 0 [].

Definition b64decode (s : string) : Result bytes :=
  if is_ascii s then a2b_base64 s
  else Raise (Error "ValueError" "string argument should contain only ASCII characters").

(** Base64 as RFC 4648, section 4, writes it: groups of four alphabet
    characters, the last group possibly ending in one or two pads, and
    nothing else. *)
Fixpoint RFC4648_valid (s : string) : bool :=
  match s with
  | EmptyString => true
  | String c1 (String c2 (String c3 (String c4 rest))) =>
      match table_a2b_base64 c1, table_a2b_base64 c2 with
      | Some _, Some _ =>
          match table_a2b_base64 c3, table_a2b_base64 c4 with
          | Some _, Some _ => RFC4648_valid rest
          | Some _, None => Ascii.eqb c4 BASE64_PAD && String.eqb rest EmptyString
          | None, _ =>
              Ascii.eqb c3 BASE64_PAD && Ascii.eqb c4 BASE64_PAD
              && String.eqb rest EmptyString
          end
      | _, _ => false
      end
  | _ => false
  end.

End base64.

Arguments base64.b64decode : simpl never.

(** ** The libraries as an environment *)

(** A loaded model: a rembg session or a [WithoutBG] instance.  Only its
    identity is observable. *)
Inductive Handle : Type := handle_id (n : nat).

(** The effectful library calls a handler makes. *)
Inductive Call : Type :=
| call_new_session (model_name : string)
| call_remove_bytes (data : bytes) (session : Handle)
| call_remove_image (im : PIL.Image) (session : Handle)
| call_WithoutBG_opensource
| call_remove_background (bg_model : Handle) (im : PIL.Image)
| call_get (url : string) (timeout : Z).

(** A call and whether it returned ([true]) or raised ([false]). *)
Record Event : Type := mkEvent {
  call : Call;
  returned : bool
}.

(** The calls made so far, newest first. *)
Definition History : Type := list Event.

(** The third-party code behind the handlers.  The effectful entries see the
    history, so that the same call may answer differently at different
    times; the codecs are functions of their arguments. *)
Record World : Type := mkWorld {
  (* rembg *)
  new_session : History -> string -> Result Handle;
  remove_bytes : History -> bytes -> Handle -> Result bytes;
  remove_image : History -> PIL.Image -> Handle -> Result PIL.Image;
  (* withoutbg *)
  WithoutBG_opensource : History -> Result Handle;
  WithoutBG_remove_background : History -> Handle -> PIL.Image -> Result PIL.Image;
  (* httpx: client.get(url) under a client-wide timeout, in seconds *)
  get : History -> string -> Z -> Result httpx.Response;
  HTTPStatusError_message : httpx.Response -> string;
  (* the Pillow codecs *)
  Image_open : bytes -> Result PIL.Image;
  Image_save : PIL.Image -> PIL.Format -> option Z -> Result bytes;
  (* str() of an HTTPException, which depends on the Starlette release *)
  HTTPException_str : Z -> string -> string;
  (* str() of the UnicodeEncodeError that text.encode("latin-1") raises *)
  UnicodeEncodeError_message : string -> string
}.

(** [str(e)]. *)
Definition str (w : World) (e : exn) : string :=
  match e with
  | HTTPException status_code detail => HTTPException_str w status_code detail
  | Error _ message => message
  end.

(** [response.raise_for_status()]. *)
Definition raise_for_status (w : World) (response : httpx.Response) : Result unit :=
  if httpx.is_success response then Ok tt
  else Raise (Error "HTTPStatusError" (HTTPStatusError_message w response)).

(** [Response(content=..., media_type=..., headers=...)].  Starlette
    encodes the names and values of [headers] as latin-1 while it builds the
    response, so the constructor raises for a header that latin-1 cannot
    hold.  The media types passed by the handlers are literals. *)
Definition Response_new (w : World) (content : bytes) (media_type : string)
    (headers : list (string * string)) : Result Response :=
  match find (fun kv => negb (latin1_encodable (fst kv) && latin1_encodable (snd kv)))
             headers with
  | None => Ok {| content := content; media_type := media_type; headers := headers |}
  | Some (k, v) =>
      Raise (Error "UnicodeEncodeError"
               (UnicodeEncodeError_message w (if latin1_encodable k then v else k)))
  end.

(** ** Process state and the handler monad *)

(** [global_model] is the module-level variable that caches the model:
    [session] in bg-removal-server-v2.py, [model] in withoutbg-server.py. *)
Record Process : Type := mkProcess {
  global_model : option Handle;
  log : History
}.

(** A process that has just been started. *)
Definition fresh : Process := {| global_model := None; log := [] |}.

Definition M (A : Type) : Type := Process -> Result A * Process.

Definition ret {A : Type} (a : A) : M A := fun p => (Ok a, p).

Definition bind {A B : Type} (m : M A) (k : A -> M B) : M B :=
  fun p =>
    match m p with
    | (Ok a, p') => k a p'
    | (Raise e, p') => (Raise e, p')
    end.

Definition raise {A : Type} (e : exn) : M A := fun p => (Raise e, p).

(** A call that has no effect on the process. *)
Definition lift {A : Type} (r : Result A) : M A := fun p => (r, p).

(** The process after call [c] has answered [r]. *)
Definition logged {A : Type} (c : Call) (r : Result A) (p : Process) : Process :=
  {| global_model := global_model p;
     log := {| call := c; returned := is_ok r |} :: log p |}.

(** A call into the world, recorded in the log. *)
Definition extern {A : Type} (c : Call) (f : History -> Result A) : M A :=
  fun p => let r := f (log p) in (r, logged c r p).

Definition read_global : M (option Handle) := fun p => (Ok (global_model p), p).

Definition assign_global (h : Handle) : M unit :=
  fun p => (Ok tt, {| global_model := Some h; log := log p |}).

(** [try: m except Exception as e: h e]. *)
Definition try_except {A : Type} (m : M A) (h : exn -> M A) : M A :=
  fun p =>
    match m p with
    | (Ok a, p') => (Ok a, p')
    | (Raise e, p') => h e p'
    end.

Declare Scope handler_scope.
Delimit Scope handler_scope with handler.
Notation "x <- m ;; k" := (bind m (fun x => k))
  (at level 100, m at next level, right associativity) : handler_scope.
Notation "m ;; k" := (bind m (fun _ => k))
  (at level 100, right associativity) : handler_scope.

(** The upload cap of the three [remove_background] handlers. *)
Definition MAX_UPLOAD : Z := 10 * 1024 * 1024.

(** What FastAPI sends for the outcome of a handler. *)
Definition reply_of {A : Type} (render : A -> HttpReply) (r : Result A) : HttpReply :=
  match r with
  | Ok a => render a
  | Raise (HTTPException status_code detail) =>
      {| status := status_code;
         reply_media_type := "application/json";
         reply_headers := [];
         body := JsonDetail detail |}
  | Raise (Error _ _) =>
      {| status := 500;
         reply_media_type := "text/plain; charset=utf-8";
         reply_headers := [];
         body := PlainText "Internal Server Error" |}
  end.

Definition render_response (r : Response) : HttpReply :=
  {| status := 200;
     reply_media_type := media_type r;
     reply_headers := headers r;
     body := ImageBody (content r) |}.

Definition render_dict (d : list (string * Json)) : HttpReply :=
  {| status := 200;
     reply_media_type := "application/json";
     reply_headers := [];
     body := JsonObject d |}.

Local Open Scope handler_scope.

(** ** The compositing block

    The block guarded by [if request.bgcolor and len(request.bgcolor) >= 3]
    is the same text in the URL and base64 handlers of
    bg-removal-server-v2.py (lines 152-170 and 225-243) and of
    withoutbg-server.py (lines 163-180 and 228-245). *)
Definition composite_bgcolor (bgcolor : option (list Z)) (output_image : PIL.Image)
  : Result PIL.Image :=
  match bgcolor with
  | Some l =>
      if truthy bgcolor && (len l >=? 3) then
        let bg_color := firstn 3 l in
        let alpha := if len l >? 3 then nth 3 l 0 else 255 in
        let output_image :=
          if negb (PIL.Mode_eqb (PIL.mode output_image) PIL.RGBA)
          then PIL.convert_RGBA output_image
          else output_image in
        Result_bind (PIL.new_RGBA (PIL.size output_image) (bg_color ++ [alpha])%list)
          (fun background =>
             Result_bind (PIL.alpha_composite background output_image)
               (fun output_image => Ok (PIL.convert_RGB output_image)))
      else Ok output_image
  | None => Ok output_image
  end.

(** The handler-level [except Exception as e] clause: whatever was raised
    is replaced by an [HTTPException] with status 500. *)
Definition failure (w : World) (e : exn) : exn :=
  HTTPException 500 ("Processing failed: " ++ str w e).

Definition processing_failed {A : Type} (w : World) (e : exn) : M A :=
  raise (failure w e).

(** The same clause seen from a step that has no effect on the process. *)
Definition or_failure {A : Type} (w : World) (r : Result A) : Result A :=
  match r with
  | Ok a => Ok a
  | Raise e => Raise (failure w e)
  end.

(** The statements that follow the model call in the URL and base64
    handlers, read as one function of the model's answer: the compositing
    block, the encoder and the [Response].  The handlers below spell these
    statements out; [encode_output] is what the theorems compare them
    with. *)
Definition encode_output (w : World) (bgcolor : option (list Z)) (output_image : PIL.Image)
  : Result Response :=
  Result_bind (composite_bgcolor bgcolor output_image)
    (fun output_image =>
       let format_type := if truthy bgcolor then PIL.JPEG else PIL.PNG in
       Result_bind (Image_save w output_image format_type (Some 95))
         (fun output_bytes =>
            let media_type := if truthy bgcolor then "image/jpeg" else "image/png" in
            Ok {| content := output_bytes; media_type := media_type; headers := [] |})).

(** The header set by the upload handlers. *)
Definition content_disposition (file : UploadFile) : list (string * string) :=
  [("Content-Disposition",
    "inline; filename=" ++ dquote ++ "processed_" ++ filename file ++ dquote)].

(** The [Response] built by the three upload handlers. *)
Definition upload_response (w : World) (file : UploadFile) (output_data : bytes)
  : Result Response :=
  Response_new w output_data "image/png" (content_disposition file).

(** The exception raised by the size check of the upload handlers. *)
Definition too_large : exn := HTTPException 400 "File too large (max 10MB)".

(** The reply that a client gets for the outcome of an image handler. *)
Definition answer (outcome : Result Response * Process) : HttpReply :=
  reply_of render_response (fst outcome).

(** ** bg-removal-server.py *)

Module V1.
Section Server.

Variable w : World.

(** The module-level [session], loaded before the application serves. *)
Variable session : Handle.

Definition load_session : M Handle :=
  extern (call_new_session "isnet-general-use")
         (fun h => new_session w h "isnet-general-use").

Definition root : M (list (string * Json)) :=
  ret [("service", JString "Background Removal API");
       ("status", JString "healthy");
       ("model", JString "isnet-general-use");
       ("version", JString "1.0.0")].

Definition health : M (list (string * Json)) :=
  ret [("status", JString "ok"); ("model", JString "rembg/isnet-general-use")].

Definition remove_background (file : UploadFile) : M Response :=
  try_except
    (let input_data := read file in
     (if len input_data >? 10 * 1024 * 1024
      then raise (HTTPException 400 "File too large (max 10MB)")
      else ret tt) ;;
     output_data <- extern (call_remove_bytes input_data session)
                           (fun h => remove_bytes w h input_data session) ;;
     lift (Response_new w output_data "image/png" (content_disposition file)))
    (processing_failed w).

Definition remove_background_from_url (image_url : string) : M Response :=
  try_except
    (response <- extern (call_get image_url 30) (fun h => get w h image_url 30) ;;
     lift (raise_for_status w response) ;;
     let input_data := httpx.content response in
     output_data <- extern (call_remove_bytes input_data session)
                           (fun h => remove_bytes w h input_data session) ;;
     lift (Response_new w output_data "image/png" []))
    (processing_failed w).

End Server.
End V1.

(** ** bg-removal-server-v2.py *)

Module V2.

Module ImageUrlRequest.
Record t : Type := mk { image_url : string; bgcolor : option (list Z) }.
End ImageUrlRequest.

Module ImageBase64Request.
Record t : Type := mk { image_base64 : string; bgcolor : option (list Z) }.
End ImageBase64Request.

Section Server.

Variable w : World.

Definition root : M (list (string * Json)) :=
  ret [("service", JString "Background Removal API");
       ("status", JString "healthy");
       ("model", JString "u2netp (lightweight 4.7MB)");
       ("version", JString "2.0.0");
       ("mode", JString "lazy-loading")].

Definition health : M (list (string * Json)) :=
  ret [("status", JString "ok"); ("model", JString "u2netp (lightweight)")].

(** [global session; if session is None: session = new_session("u2netp")],
    as written in each of the three handlers; the value is the [session]
    the handler then passes to [remove]. *)
Definition session_or_new : M Handle :=
  session <- read_global ;;
  match session with
  | None =>
      session <- extern (call_new_session "u2netp")
                        (fun h => new_session w h "u2netp") ;;
      assign_global session ;;
      ret session
  | Some session => ret session
  end.

Definition remove_background (file : UploadFile) : M Response :=
  try_except
    (let input_data := read file in
     (if len input_data >? 10 * 1024 * 1024
      then raise (HTTPException 400 "File too large (max 10MB)")
      else ret tt) ;;
     session <- session_or_new ;;
     output_data <- extern (call_remove_bytes input_data session)
                           (fun h => remove_bytes w h input_data session) ;;
     lift (Response_new w output_data "image/png" (content_disposition file)))
    (processing_failed w).

Definition remove_background_from_url (request : ImageUrlRequest.t) : M Response :=
  try_except
    (let image_url := ImageUrlRequest.image_url request in
     response <- extern (call_get image_url 30) (fun h => get w h image_url 30) ;;
     lift (raise_for_status w response) ;;
     let input_data := httpx.content response in
     image <- lift (Image_open w input_data) ;;
     session <- session_or_new ;;
     output_image <- extern (call_remove_image image session)
                            (fun h => remove_image w h image session) ;;
     output_image <- lift (composite_bgcolor (ImageUrlRequest.bgcolor request) output_image) ;;
     let format_type :=
       if truthy (ImageUrlRequest.bgcolor request) then PIL.JPEG else PIL.PNG in
     output_bytes <- lift (Image_save w output_image format_type (Some 95)) ;;
     let media_type :=
       if truthy (ImageUrlRequest.bgcolor request) then "image/jpeg" else "image/png" in
     lift (Response_new w output_bytes media_type []))
    (processing_failed w).

Definition remove_background_from_base64 (request : ImageBase64Request.t) : M Response :=
  try_except
    (image_bytes <- lift (base64.b64decode (ImageBase64Request.image_base64 request)) ;;
     image <- lift (Image_open w image_bytes) ;;
     session <- session_or_new ;;
     output_image <- extern (call_remove_image image session)
                            (fun h => remove_image w h image session) ;;
     output_image <- lift (composite_bgcolor (ImageBase64Request.bgcolor request) output_image) ;;
     let format_type :=
       if truthy (ImageBase64Request.bgcolor request) then PIL.JPEG else PIL.PNG in
     output_bytes <- lift (Image_save w output_image format_type (Some 95)) ;;
     let media_type :=
       if truthy (ImageBase64Request.bgcolor request) then "image/jpeg" else "image/png" in
     lift (Response_new w output_bytes media_type []))
    (processing_failed w).

(** The statements of [remove_background_from_url] up to and including the
    model call; its value is the model's [output_image]. *)
Definition url_foreground (request : ImageUrlRequest.t) : M PIL.Image :=
  let image_url := ImageUrlRequest.image_url request in
  response <- extern (call_get image_url 30) (fun h => get w h image_url 30) ;;
  lift (raise_for_status w response) ;;
  let input_data := httpx.content response in
  image <- lift (Image_open w input_data) ;;
  session <- session_or_new ;;
  extern (call_remove_image image session) (fun h => remove_image w h image session).

(** The statements of [remove_background_from_base64] up to and including
    the model call. *)
Definition base64_foreground (request : ImageBase64Request.t) : M PIL.Image :=
  image_bytes <- lift (base64.b64decode (ImageBase64Request.image_base64 request)) ;;
  image <- lift (Image_open w image_bytes) ;;
  session <- session_or_new ;;
  extern (call_remove_image image session) (fun h => remove_image w h image session).

(** The routes of the application. *)
Inductive Request : Type :=
| GET_root
| GET_health
| POST_remove_bg (file : UploadFile)
| POST_remove_bg_from_url (request : ImageUrlRequest.t)
| POST_remove_bg_base64 (request : ImageBase64Request.t).

Definition serve (rq : Request) (p : Process) : HttpReply * Process :=
  match rq with
  | GET_root => let (r, p') := root p in (reply_of render_dict r, p')
  | GET_health => let (r, p') := health p in (reply_of render_dict r, p')
  | POST_remove_bg file =>
      let (r, p') := remove_background file p in (reply_of render_response r, p')
  | POST_remove_bg_from_url request =>
      let (r, p') := remove_background_from_url request p in (reply_of render_response r, p')
  | POST_remove_bg_base64 request =>
      let (r, p') := remove_background_from_base64 request p in (reply_of render_response r, p')
  end.

(** Requests handled one after the other. *)
Fixpoint run (rqs : list Request) (p : Process) : list HttpReply * Process :=
  match rqs with
  | [] => ([], p)
  | rq :: rqs' =>
      let (reply, p') := serve rq p in
      let (replies, p'') := run rqs' p' in
      (reply :: replies, p'')
  end.

End Server.
End V2.

(** ** withoutbg-server.py *)

Module WithoutBG.

Module ImageUrlRequest.
Record t : Type := mk {
  image_url : string;
  bgcolor : option (list Z);
  model : string               (* placeholder, never read *)
}.
End ImageUrlRequest.

Module ImageBase64Request.
Record t : Type := mk {
  image_base64 : string;
  bgcolor : option (list Z);
  model : string               (* placeholder, never read *)
}.
End ImageBase64Request.

Section Server.

Variable w : World.

Definition get_model : M Handle :=
  model <- read_global ;;
  match model with
  | None =>
      model <- extern call_WithoutBG_opensource (fun h => WithoutBG_opensource w h) ;;
      assign_global model ;;
      ret model
  | Some model => ret model
  end.

Definition root : M (list (string * Json)) :=
  ret [("service", JString "withoutBG API Server");
       ("status", JString "healthy");
       ("model", JString "withoutBG Focus v1.0.0");
       ("version", JString "1.0.0")].

Definition health : M (list (string * Json)) :=
  model <- read_global ;;
  ret [("status", JString "ok");
       ("model_loaded", JBool (match model with Some _ => true | None => false end))].

Definition remove_background (file : UploadFile) : M Response :=
  try_except
    (let input_data := read file in
     (if len input_data >? 10 * 1024 * 1024
      then raise (HTTPException 400 "File too large (max 10MB)")
      else ret tt) ;;
     image <- lift (Image_open w input_data) ;;
     bg_model <- get_model ;;
     output_image <- extern (call_remove_background bg_model image)
                            (fun h => WithoutBG_remove_background w h bg_model image) ;;
     output_bytes <- lift (Image_save w output_image PIL.PNG None) ;;
     lift (Response_new w output_bytes "image/png" (content_disposition file)))
    (processing_failed w).

Definition remove_background_from_url (request : ImageUrlRequest.t) : M Response :=
  try_except
    (let image_url := ImageUrlRequest.image_url request in
     response <- extern (call_get image_url 30) (fun h => get w h image_url 30) ;;
     lift (raise_for_status w response) ;;
     let input_data := httpx.content response in
     image <- lift (Image_open w input_data) ;;
     bg_model <- get_model ;;
     output_image <- extern (call_remove_background bg_model image)
                            (fun h => WithoutBG_remove_background w h bg_model image) ;;
     output_image <- lift (composite_bgcolor (ImageUrlRequest.bgcolor request) output_image) ;;
     let format_type :=
       if truthy (ImageUrlRequest.bgcolor request) then PIL.JPEG else PIL.PNG in
     output_bytes <- lift (Image_save w output_image format_type (Some 95)) ;;
     let media_type :=
       if truthy (ImageUrlRequest.bgcolor request) then "image/jpeg" else "image/png" in
     lift (Response_new w output_bytes media_type []))
    (processing_failed w).

Definition remove_background_from_base64 (request : ImageBase64Request.t) : M Response :=
  try_except
    (image_bytes <- lift (base64.b64decode (ImageBase64Request.image_base64 request)) ;;
     image <- lift (Image_open w image_bytes) ;;
     bg_model <- get_model ;;
     output_image <- extern (call_remove_background bg_model image)
                            (fun h => WithoutBG_remove_background w h bg_model image) ;;
     output_image <- lift (composite_bgcolor (ImageBase64Request.bgcolor request) output_image) ;;
     let format_type :=
       if truthy (ImageBase64Request.bgcolor request) then PIL.JPEG else PIL.PNG in
     output_bytes <- lift (Image_save w output_image format_type (Some 95)) ;;
     let media_type :=
       if truthy (ImageBase64Request.bgcolor request) then "image/jpeg" else "image/png" in
     lift (Response_new w output_bytes media_type []))
    (processing_failed w).

(** The statements of [remove_background_from_url] up to and including the
    model call; its value is the model's [output_image]. *)
Definition url_foreground (request : ImageUrlRequest.t) : M PIL.Image :=
  let image_url := ImageUrlRequest.image_url request in
  response <- extern (call_get image_url 30) (fun h => get w h image_url 30) ;;
  lift (raise_for_status w response) ;;
  let input_data := httpx.content response in
  image <- lift (Image_open w input_data) ;;
  bg_model <- get_model ;;
  extern (call_remove_background bg_model image)
         (fun h => WithoutBG_remove_background w h bg_model image).

(** The statements of [remove_background_from_base64] up to and including
    the model call. *)
Definition base64_foreground (request : ImageBase64Request.t) : M PIL.Image :=
  image_bytes <- lift (base64.b64decode (ImageBase64Request.image_base64 request)) ;;
  image <- lift (Image_open w image_bytes) ;;
  bg_model <- get_model ;;
  extern (call_remove_background bg_model image)
         (fun h => WithoutBG_remove_background w h bg_model image).

(** The routes of the application. *)
Inductive Request : Type :=
| GET_root
| GET_health
| POST_remove_bg (file : UploadFile)
| POST_remove_bg_from_url (request : ImageUrlRequest.t)
| POST_remove_bg_base64 (request : ImageBase64Request.t).

Definition serve (rq : Request) (p : Process) : HttpReply * Process :=
  match rq with
  | GET_root => let (r, p') := root p in (reply_of render_dict r, p')
  | GET_health => let (r, p') := health p in (reply_of render_dict r, p')
  | POST_remove_bg file =>
      let (r, p') := remove_background file p in (reply_of render_response r, p')
  | POST_remove_bg_from_url request =>
      let (r, p') := remove_background_from_url request p in (reply_of render_response r, p')
  | POST_remove_bg_base64 request =>
      let (r, p') := remove_background_from_base64 request p in (reply_of render_response r, p')
  end.

(** Requests handled one after the other. *)
Fixpoint run (rqs : list Request) (p : Process) : list HttpReply * Process :=
  match rqs with
  | [] => ([], p)
  | rq :: rqs' =>
      let (reply, p') := serve rq p in
      let (replies, p'') := run rqs' p' in
      (reply :: replies, p'')
  end.

End Server.
End WithoutBG.

(** ** What a successful upload is answered with

    Status 200, media type [image/png], the [Content-Disposition] header
    that names [processed_<filename>], and a body that the decoder reads
    back as a PNG of size [sz]. *)
Definition png_reply_of_size (w : World) (file : UploadFile) (sz : Z * Z) (reply : HttpReply)
  : Prop :=
  status reply = 200 /\
  reply_media_type reply = "image/png" /\
  reply_headers reply =
    [("Content-Disposition",
      "inline; filename=" ++ dquote ++ "processed_" ++ filename file ++ dquote)] /\
  exists data decoded,
    body reply = ImageBody data /\
    Image_open w data = Ok decoded /\
    PIL.format decoded = Some PIL.PNG /\
    PIL.size decoded = sz.

(** ** Runs of the colour-aware handlers

    [responds w bgcolor output_image r]: one of the four handlers that read
    [bgcolor] (URL and base64, on either lazy server) was run on a request
    carrying [bgcolor], the model answered [output_image], and the handler
    ended with [r]. *)
Inductive responds (w : World) (bgcolor : option (list Z)) (output_image : PIL.Image)
    (r : Result Response) : Prop :=
| responds_V2_url (request : V2.ImageUrlRequest.t) (p p' : Process) :
    V2.ImageUrlRequest.bgcolor request = bgcolor ->
    V2.url_foreground w request p = (Ok output_image, p') ->
    V2.remove_background_from_url w request p = (r, p') ->
    responds w bgcolor output_image r
| responds_V2_base64 (request : V2.ImageBase64Request.t) (p p' : Process) :
    V2.ImageBase64Request.bgcolor request = bgcolor ->
    V2.base64_foreground w request p = (Ok output_image, p') ->
    V2.remove_background_from_base64 w request p = (r, p') ->
    responds w bgcolor output_image r
| responds_WithoutBG_url (request : WithoutBG.ImageUrlRequest.t) (p p' : Process) :
    WithoutBG.ImageUrlRequest.bgcolor request = bgcolor ->
    WithoutBG.url_foreground w request p = (Ok output_image, p') ->
    WithoutBG.remove_background_from_url w request p = (r, p') ->
    responds w bgcolor output_image r
| responds_WithoutBG_base64 (request : WithoutBG.ImageBase64Request.t) (p p' : Process) :
    WithoutBG.ImageBase64Request.bgcolor request = bgcolor ->
    WithoutBG.base64_foreground w request p = (Ok output_image, p') ->
    WithoutBG.remove_background_from_base64 w request p = (r, p') ->
    responds w bgcolor output_image r.

(** The foreground as the compositing block uses it: converted to [RGBA]
    unless it has that mode already. *)
Definition as_RGBA (output_image : PIL.Image) : PIL.Image :=
  if negb (PIL.Mode_eqb (PIL.mode output_image) PIL.RGBA)
  then PIL.convert_RGBA output_image
  else output_image.

Definition white : PIL.Pixel := (255, 255, 255, 255).

(** [composed] is [output_image] laid over a solid, opaque, white canvas of
    its own size and then flattened to [RGB]. *)
Definition composited_on_white (output_image composed : PIL.Image) : Prop :=
  exists background over,
    PIL.new_RGBA (PIL.size output_image) [255; 255; 255; 255] = Ok background /\
    PIL.mode background = PIL.RGBA /\
    PIL.size background = PIL.size output_image /\
    PIL.pixels background
      = repeat white (Z.to_nat (PIL.width output_image * PIL.height output_image)) /\
    PIL.alpha_composite background (as_RGBA output_image) = Ok over /\
    composed = PIL.convert_RGB over.

(** ** Reading the log

    [loads h] counts the attempts to create a model ([new_session] or
    [WithoutBG.opensource]) in [h], [loaded h] those that returned one. *)
Definition is_load (c : Call) : bool :=
  match c with
  | call_new_session _ | call_WithoutBG_opensource => true
  | _ => false
  end.

(** The model that an inference call runs on. *)
Definition model_of (c : Call) : option Handle :=
  match c with
  | call_remove_bytes _ session | call_remove_image _ session => Some session
  | call_remove_background bg_model _ => Some bg_model
  | _ => None
  end.

Definition loads (h : History) : nat :=
  List.length (filter (fun ev => is_load (call ev)) h).

Definition loaded (h : History) : nat :=
  List.length (filter (fun ev => is_load (call ev) && returned ev) h).

(** An event that creates nothing and, if it runs a model, runs [s]. *)
Definition reuses (s : Handle) (ev : Event) : Prop :=
  is_load (call ev) = false /\
  (model_of (call ev) = None \/ model_of (call ev) = Some s).

(** The global holds a model exactly when one creation has returned. *)
Definition cache_consistent (p : Process) : Prop :=
  match global_model p with
  | None => loaded (log p) = 0%nat
  | Some _ => loaded (log p) = 1%nat
  end.

(** How a request may move the process: with a model cached it keeps that
    model and only reuses it; without one it either still has none and has
    created none, or has created exactly one and holds it. *)
Definition lazy_step (p p' : Process) : Prop :=
  exists evs,
    log p' = (evs ++ log p)%list /\
    match global_model p with
    | Some s => global_model p' = Some s /\ Forall (reuses s) evs
    | None =>
        (global_model p' = None /\ loaded evs = 0%nat) \/
        (exists s, global_model p' = Some s /\ loaded evs = 1%nat)
    end.

(** What "created at most once, then reused" says of a server, given the
    function that runs a sequence of requests on it: started fresh, the
    process has seen at most one creation, and holds a model exactly when
    it has seen one; and from a process that holds a model, every further
    sequence of requests keeps that model, creates nothing and runs no
    other model. *)
Definition created_once_then_reused {Rq : Type}
    (run : list Rq -> Process -> list HttpReply * Process) : Prop :=
  (forall rqs,
     let p := snd (run rqs fresh) in
     (loaded (log p) <= 1)%nat /\
     (global_model p <> None <-> loaded (log p) = 1%nat)) /\
  (forall rqs p s,
     global_model p = Some s ->
     let p' := snd (run rqs p) in
     global_model p' = Some s /\
     loads (log p') = loads (log p) /\
     exists evs, log p' = (evs ++ log p)%list /\ Forall (reuses s) evs).

(** ** A small concrete world

    A toy instance of [World], used to run the handlers on concrete
    requests.  Images are serialised as a four-byte header (format, mode,
    width, height) followed by four bytes per pixel; the "model" clears the
    alpha of every pixel whose red band is below 128. *)

Module Sample.

Definition byte_of_Z (v : Z) : byte :=
  match Byte.of_N (Z.to_N (v mod 256)) with
  | Some b => b
  | None => x00
  end.

Definition Z_of_byte (b : byte) : Z := Z.of_N (Byte.to_N b).

Definition Format_tag (f : PIL.Format) : byte :=
  match f with PIL.PNG => x50 | PIL.JPEG => x4a end.

Definition Mode_tag (m : PIL.Mode) : byte :=
  match m with PIL.RGB => x03 | PIL.RGBA => x04 end.

Fixpoint encode_pixels (ps : list PIL.Pixel) : bytes :=
  match ps with
  | [] => []
  | (r, g, b, a) :: ps' =>
      byte_of_Z r :: byte_of_Z g :: byte_of_Z b :: byte_of_Z a :: encode_pixels ps'
  end.

Fixpoint decode_pixels (bs : bytes) : option (list PIL.Pixel) :=
  match bs with
  | [] => Some []
  | r :: g :: b :: a :: bs' =>
      option_map (cons (Z_of_byte r, Z_of_byte g, Z_of_byte b, Z_of_byte a))
                 (decode_pixels bs')
  | _ => None
  end.

Definition cannot_identify {A : Type} : Result A :=
  Raise (Error "UnidentifiedImageError" "cannot identify image file").

Definition open (bs : bytes) : Result PIL.Image :=
  match bs with
  | f :: m :: wd :: ht :: rest =>
      match (if Byte.eqb f x50 then Some PIL.PNG
             else if Byte.eqb f x4a then Some PIL.JPEG else None),
            (if Byte.eqb m x03 then Some PIL.RGB
             else if Byte.eqb m x04 then Some PIL.RGBA else None),
            decode_pixels rest with
      | Some fmt, Some md, Some ps =>
          if len ps =? Z_of_byte wd * Z_of_byte ht then
            Ok {| PIL.mode := md;
                  PIL.size := (Z_of_byte wd, Z_of_byte ht);
                  PIL.pixels := ps;
                  PIL.format := Some fmt |}
          else cannot_identify
      | _, _, _ => cannot_identify
      end
  | _ => cannot_identify
  end.

Definition save (im : PIL.Image) (f : PIL.Format) (quality : option Z) : Result bytes :=
  match f, PIL.mode im with
  | PIL.JPEG, PIL.RGBA => Raise (Error "OSError" "cannot write mode RGBA as JPEG")
  | _, _ =>
      Ok (Format_tag f :: Mode_tag (PIL.mode im)
            :: byte_of_Z (PIL.width im) :: byte_of_Z (PIL.height im)
            :: encode_pixels (PIL.pixels im))
  end.

(** The toy segmentation: dark-red pixels become transparent. *)
Definition cut_out (im : PIL.Image) : PIL.Image :=
  {| PIL.mode := PIL.RGBA;
     PIL.size := PIL.size im;
     PIL.pixels :=
       map (fun p => (PIL.red p, PIL.green p, PIL.blue p,
                      if PIL.red p <? 128 then 0 else 255))
           (PIL.pixels im);
     PIL.format := None |}.

Definition cut_out_bytes (data : bytes) : Result bytes :=
  Result_bind (open data) (fun im => save (cut_out im) PIL.PNG None).

(** A 2x1 opaque picture: a bright-red pixel and a dark one. *)
Definition picture : PIL.Image :=
  {| PIL.mode := PIL.RGBA;
     PIL.size := (2, 1);
     PIL.pixels := [(200, 10, 10, 255); (20, 30, 40, 255)];
     PIL.format := Some PIL.PNG |}.

Definition picture_bytes : bytes :=
  Eval cbv in
    match save picture PIL.PNG None with Ok bs => bs | Raise _ => [] end.

(** [picture_bytes] in base64. *)
Definition picture_base64 : string := "UAQCAcgKCv8UHij/".

(** The one host that serves a picture; any other URL answers 404, and the
    host "http://down/" refuses the connection. *)
Definition fetch (h : History) (url : string) (timeout : Z) : Result httpx.Response :=
  if String.eqb url "http://images/cat.png" then
    Ok {| httpx.status_code := 200; httpx.content := picture_bytes |}
  else if String.eqb url "http://down/" then
    Raise (Error "ConnectError" "All connection attempts failed")
  else Ok {| httpx.status_code := 404; httpx.content := [] |}.

Definition digits (n : Z) : string :=
  String (ascii_of_N (Z.to_N (48 + n / 100 mod 10)))
    (String (ascii_of_N (Z.to_N (48 + n / 10 mod 10)))
       (String (ascii_of_N (Z.to_N (48 + n mod 10))) EmptyString)).

Definition world : World :=
  {| new_session := fun _ _ => Ok (handle_id 1);
     remove_bytes := fun _ data _ => cut_out_bytes data;
     remove_image := fun _ im _ => Ok (cut_out im);
     WithoutBG_opensource := fun _ => Ok (handle_id 2);
     WithoutBG_remove_background := fun _ _ im => Ok (cut_out im);
     get := fetch;
     HTTPStatusError_message := fun r => "Client error " ++ digits (httpx.status_code r);
     Image_open := open;
     Image_save := save;
     HTTPException_str := fun status_code detail => digits status_code ++ ": " ++ detail;
     UnicodeEncodeError_message :=
       fun text => "'latin-1' codec can't encode characters: ordinal not in range(256)" |}.

(** An upload of [n] zero bytes. *)
Definition zeros (n : Z) : UploadFile :=
  {| filename := "big.png";
     content_type := "image/png";
     read := repeat x00 (Z.to_nat n) |}.

Definition upload : UploadFile :=
  {| filename := "cat.png"; content_type := "image/png"; read := picture_bytes |}.

(** The same picture under a file name of one Chinese character (U+732B,
    in UTF-8 the bytes E7 8C AB) and ".png". *)
Definition upload_named_in_Chinese : UploadFile :=
  {| filename := String "231"%char (String "140"%char (String "171"%char ".png"));
     content_type := "image/png";
     read := picture_bytes |}.

End Sample.

(** ** test-server.py *)

Module TestServer.

Definition root : Result (list (string * Json)) :=
  Ok [("status", JString "ok"); ("message", JString "Test server running")].

Definition health : Result (list (string * Json)) :=
  Ok [("status", JString "healthy")].

(** [import_rembg] is the outcome of the statement [from rembg import
    remove] inside the [try] block. *)
Definition test_rembg (w : World) (import_rembg : Result unit)
  : Result (list (string * Json)) :=
  match Result_bind import_rembg
          (fun _ => Ok [("rembg", JString "available"); ("status", JString "ok")]) with
  | Ok d => Ok d
  | Raise e => Ok [("rembg", JString "error"); ("error", JString (str w e))]
  end.

End TestServer.

(** ** Vocabulary of the further properties *)

(** A reply is either a 200 that carries an image or a JSON object, or the
    500 of the [except] clause with its "Processing failed: " detail. *)
Definition answered_200_or_500 (reply : HttpReply) : Prop :=
  (status reply = 200 /\
   ((exists data, body reply = ImageBody data) \/
    (exists fields, body reply = JsonObject fields))) \/
  (status reply = 500 /\
   exists message, body reply = JsonDetail ("Processing failed: " ++ message)).

Definition is_get (c : Call) : bool :=
  match c with
  | call_get _ _ => true
  | _ => false
  end.

Definition is_inference (c : Call) : bool :=
  match model_of c with
  | Some _ => true
  | None => false
  end.

(** How many calls of a kind a stretch of the log holds. *)
Definition calls (kind : Call -> bool) (h : History) : nat :=
  List.length (filter (fun ev => kind (call ev)) h).

(** A request that fetches, creates and infers at most once each, and
    that makes no further call after one that raised: of the calls it has
    logged, all but the newest returned. *)
Definition at_most_once_each (p p' : Process) : Prop :=
  exists evs,
    log p' = (evs ++ log p)%list /\
    (calls is_get evs <= 1)%nat /\
    (calls is_load evs <= 1)%nat /\
    (calls is_inference evs <= 1)%nat /\
    Forall (fun ev => returned ev = true) (tl evs).

(** The colour bands of a pixel are bytes. *)
Definition in_byte_range (px : PIL.Pixel) : Prop :=
  0 <= PIL.red px <= 255 /\ 0 <= PIL.green px <= 255 /\ 0 <= PIL.blue px <= 255.

(** The canvas pixel that the compositing block paints for a [bgcolor] of
    at least three elements: its first three elements and the fourth, or
    255 when there is none, each clipped to a byte. *)
Definition fill_pixel (l : list Z) : PIL.Pixel :=
  (PIL.CLIP8 (nth 0 l 0), PIL.CLIP8 (nth 1 l 0), PIL.CLIP8 (nth 2 l 0),
   PIL.CLIP8 (if len l >? 3 then nth 3 l 0 else 255)).

(** The elements of [bgcolor] that the block hands to Pillow. *)
Definition fill_fits (l : list Z) : Prop :=
  PIL.fits_c_int (nth 0 l 0) = true /\
  PIL.fits_c_int (nth 1 l 0) = true /\
  PIL.fits_c_int (nth 2 l 0) = true /\
  PIL.fits_c_int (if len l >? 3 then nth 3 l 0 else 255) = true.

(** A world whose one URL serves a body of 10 MiB + 1 bytes that the
    decoder accepts; everything else is as in [Sample.world]. *)
Module Bulk.

Definition body : bytes := repeat x00 (Z.to_nat (MAX_UPLOAD + 1)).

Definition world : World :=
  {| new_session := new_session Sample.world;
     remove_bytes := fun _ data _ => Ok data;
     remove_image := remove_image Sample.world;
     WithoutBG_opensource := WithoutBG_opensource Sample.world;
     WithoutBG_remove_background := WithoutBG_remove_background Sample.world;
     get := fun _ _ _ => Ok {| httpx.status_code := 200; httpx.content := body |};
     HTTPStatusError_message := HTTPStatusError_message Sample.world;
     Image_open := fun _ => Ok Sample.picture;
     Image_save := Image_save Sample.world;
     HTTPException_str := HTTPException_str Sample.world;
     UnicodeEncodeError_message := UnicodeEncodeError_message Sample.world |}.

End Bulk.

(** A world in which no model can be loaded or run. *)
Module Broken.

Definition unavailable {A : Type} : Result A :=
  Raise (Error "RuntimeError" "model unavailable").

Definition world : World :=
  {| new_session := fun _ _ => unavailable;
     remove_bytes := fun _ _ _ => unavailable;
     remove_image := fun _ _ _ => unavailable;
     WithoutBG_opensource := fun _ => unavailable;
     WithoutBG_remove_background := fun _ _ _ => unavailable;
     get := get Sample.world;
     HTTPStatusError_message := HTTPStatusError_message Sample.world;
     Image_open := Image_open Sample.world;
     Image_save := Image_save Sample.world;
     HTTPException_str := HTTPException_str Sample.world;
     UnicodeEncodeError_message := UnicodeEncodeError_message Sample.world |}.

End Broken.

(** * Properties *)

(** ** Lengths and the size check *)

Lemma len_nonneg {A : Type} (l : list A) : 0 <= len l.
Proof. unfold len. lia. Qed.

Lemma len_repeat {A : Type} (x : A) (n : Z) : 0 <= n -> len (repeat x (Z.to_nat n)) = n.
Proof. intros Hn. unfold len. rewrite repeat_length. lia. Qed.

Lemma len_zeros (n : Z) : 0 <= n -> len (read (Sample.zeros n)) = n.
Proof. intros Hn. unfold Sample.zeros. simpl read. now apply len_repeat. Qed.

(** A run of zero bytes is not an image of the toy codec. *)
Lemma open_zeros (n : nat) : Sample.open (repeat x00 n) = Sample.cannot_identify.
Proof. destruct n as [| [| [| [| n]]]]; reflexivity. Qed.

Lemma too_large_true (n : Z) : n > MAX_UPLOAD -> (n >? 10 * 1024 * 1024) = true.
Proof. unfold MAX_UPLOAD. intros H. apply Z.gtb_lt. lia. Qed.

Lemma too_large_false (n : Z) : n <= MAX_UPLOAD -> (n >? 10 * 1024 * 1024) = false.
Proof.
  unfold MAX_UPLOAD. intros H.
  destruct (n >? 10 * 1024 * 1024) eqn:E; [apply Z.gtb_lt in E; lia | reflexivity].
Qed.

(** ** The handlers, step by step *)

(** Case analysis on the next library answer that the goal inspects. *)
Ltac next_answer :=
  match goal with
  | |- context [match ?x with _ => _ end] =>
      lazymatch x with
      | context [match _ with _ => _ end] => fail
      | _ => destruct x eqn:?
      end
  end.

Ltac run_handler := simpl; repeat (next_answer; simpl); try reflexivity.

Create HintDb handlers.
#[local] Hint Unfold try_except bind lift extern raise ret processing_failed
  read_global assign_global or_failure encode_output Result_bind Result_map
  upload_response too_large answer : handlers.

Lemma Response_new_plain (w : World) (content : bytes) (media_type : string) :
  Response_new w content media_type []
  = Ok {| content := content; media_type := media_type; headers := [] |}.
Proof. reflexivity. Qed.

Lemma latin1_encodable_app (a b : string) :
  latin1_encodable (a ++ b) = latin1_encodable a && latin1_encodable b.
Proof.
  unfold latin1_encodable. induction a as [| c a IH]; simpl; [reflexivity |].
  rewrite IH. apply andb_assoc.
Qed.

(** The header of the upload handlers fits latin-1 exactly when the file
    name does. *)
Lemma content_disposition_latin1 (file : UploadFile) :
  latin1_encodable
    ("inline; filename=" ++ dquote ++ "processed_" ++ filename file ++ dquote)
  = latin1_encodable (filename file).
Proof.
  rewrite (latin1_encodable_app "inline; filename=").
  rewrite (latin1_encodable_app dquote).
  rewrite (latin1_encodable_app "processed_").
  rewrite (latin1_encodable_app (filename file)).
  change (latin1_encodable "inline; filename=") with true.
  change (latin1_encodable "processed_") with true.
  change (latin1_encodable dquote) with true.
  cbn [andb]. apply andb_true_r.
Qed.

Lemma upload_response_Ok (w : World) (file : UploadFile) (output_data : bytes) :
  latin1_encodable (filename file) = true ->
  upload_response w file output_data
  = Ok {| content := output_data;
          media_type := "image/png";
          headers := content_disposition file |}.
Proof.
  intros H. unfold upload_response, Response_new, content_disposition.
  cbn [find fst snd]. rewrite content_disposition_latin1, H. reflexivity.
Qed.

Lemma upload_response_Raise (w : World) (file : UploadFile) (output_data : bytes) :
  latin1_encodable (filename file) = false ->
  upload_response w file output_data
  = Raise (Error "UnicodeEncodeError"
             (UnicodeEncodeError_message w
                ("inline; filename=" ++ dquote ++ "processed_" ++ filename file ++ dquote))).
Proof.
  intros H. unfold upload_response, Response_new, content_disposition.
  cbn [find fst snd]. rewrite content_disposition_latin1, H. reflexivity.
Qed.

Lemma V2_from_url_factors (w : World) (request : V2.ImageUrlRequest.t) (p : Process) :
  V2.remove_background_from_url w request p =
  match V2.url_foreground w request p with
  | (Ok output_image, p1) =>
      (or_failure w (encode_output w (V2.ImageUrlRequest.bgcolor request) output_image), p1)
  | (Raise e, p1) => (Raise (failure w e), p1)
  end.
Proof.
  unfold V2.remove_background_from_url, V2.url_foreground.
  autounfold with handlers.
  run_handler.
Qed.

Lemma V2_from_base64_factors (w : World) (request : V2.ImageBase64Request.t) (p : Process) :
  V2.remove_background_from_base64 w request p =
  match V2.base64_foreground w request p with
  | (Ok output_image, p1) =>
      (or_failure w (encode_output w (V2.ImageBase64Request.bgcolor request) output_image), p1)
  | (Raise e, p1) => (Raise (failure w e), p1)
  end.
Proof.
  unfold V2.remove_background_from_base64, V2.base64_foreground.
  autounfold with handlers.
  run_handler.
Qed.

Lemma WithoutBG_from_url_factors (w : World) (request : WithoutBG.ImageUrlRequest.t)
    (p : Process) :
  WithoutBG.remove_background_from_url w request p =
  match WithoutBG.url_foreground w request p with
  | (Ok output_image, p1) =>
      (or_failure w (encode_output w (WithoutBG.ImageUrlRequest.bgcolor request) output_image),
       p1)
  | (Raise e, p1) => (Raise (failure w e), p1)
  end.
Proof.
  unfold WithoutBG.remove_background_from_url, WithoutBG.url_foreground.
  autounfold with handlers.
  run_handler.
Qed.

Lemma WithoutBG_from_base64_factors (w : World) (request : WithoutBG.ImageBase64Request.t)
    (p : Process) :
  WithoutBG.remove_background_from_base64 w request p =
  match WithoutBG.base64_foreground w request p with
  | (Ok output_image, p1) =>
      (or_failure w
         (encode_output w (WithoutBG.ImageBase64Request.bgcolor request) output_image),
       p1)
  | (Raise e, p1) => (Raise (failure w e), p1)
  end.
Proof.
  unfold WithoutBG.remove_background_from_base64, WithoutBG.base64_foreground.
  autounfold with handlers.
  run_handler.
Qed.

(** The upload handlers on a body that exceeds the cap: the [HTTPException]
    of the size check is raised inside the [try] block, so the [except
    Exception] clause of the same handler catches it. *)
Lemma V1_upload_rejected (w : World) (session : Handle) (file : UploadFile) (p : Process) :
  len (read file) > MAX_UPLOAD ->
  V1.remove_background w session file p = (Raise (failure w too_large), p).
Proof.
  intros H. unfold V1.remove_background. autounfold with handlers.
  rewrite (too_large_true _ H). reflexivity.
Qed.

Lemma V2_upload_rejected (w : World) (file : UploadFile) (p : Process) :
  len (read file) > MAX_UPLOAD ->
  V2.remove_background w file p = (Raise (failure w too_large), p).
Proof.
  intros H. unfold V2.remove_background. autounfold with handlers.
  rewrite (too_large_true _ H). reflexivity.
Qed.

Lemma WithoutBG_upload_rejected (w : World) (file : UploadFile) (p : Process) :
  len (read file) > MAX_UPLOAD ->
  WithoutBG.remove_background w file p = (Raise (failure w too_large), p).
Proof.
  intros H. unfold WithoutBG.remove_background. autounfold with handlers.
  rewrite (too_large_true _ H). reflexivity.
Qed.

(** The upload handlers on a body within the cap. *)
Lemma V1_upload_accepted (w : World) (session : Handle) (file : UploadFile) (p : Process) :
  len (read file) <= MAX_UPLOAD ->
  let r := remove_bytes w (log p) (read file) session in
  V1.remove_background w session file p =
  (or_failure w (Result_bind r (upload_response w file)),
   logged (call_remove_bytes (read file) session) r p).
Proof.
  intros H. unfold V1.remove_background. autounfold with handlers.
  rewrite (too_large_false _ H). run_handler.
Qed.

Lemma V2_upload_accepted (w : World) (file : UploadFile) (p : Process) :
  len (read file) <= MAX_UPLOAD ->
  V2.remove_background w file p =
  match V2.session_or_new w p with
  | (Ok session, p1) =>
      let r := remove_bytes w (log p1) (read file) session in
      (or_failure w (Result_bind r (upload_response w file)),
       logged (call_remove_bytes (read file) session) r p1)
  | (Raise e, p1) => (Raise (failure w e), p1)
  end.
Proof.
  intros H. unfold V2.remove_background. autounfold with handlers.
  rewrite (too_large_false _ H). run_handler.
Qed.

Lemma WithoutBG_upload_accepted (w : World) (file : UploadFile) (p : Process) :
  len (read file) <= MAX_UPLOAD ->
  WithoutBG.remove_background w file p =
  match Image_open w (read file) with
  | Ok image =>
      match WithoutBG.get_model w p with
      | (Ok bg_model, p1) =>
          let r := WithoutBG_remove_background w (log p1) bg_model image in
          (or_failure w
             (Result_bind r (fun output_image =>
                Result_bind (Image_save w output_image PIL.PNG None)
                            (upload_response w file))),
           logged (call_remove_background bg_model image) r p1)
      | (Raise e, p1) => (Raise (failure w e), p1)
      end
  | Raise e => (Raise (failure w e), p)
  end.
Proof.
  intros H. unfold WithoutBG.remove_background. autounfold with handlers.
  rewrite (too_large_false _ H). run_handler.
Qed.

(** The JSON error body that FastAPI sends for the 500 of a handler. *)
Lemma answer_failure (w : World) (e : exn) (p : Process) :
  answer (Raise (failure w e), p) =
  {| status := 500;
     reply_media_type := "application/json";
     reply_headers := [];
     body := JsonDetail ("Processing failed: " ++ str w e) |}.
Proof. reflexivity. Qed.

(** ** The size cap *)

(** C1, as the code has it: an upload of more than 10 MiB is answered with
    status 500, not 400.  The size check raises [HTTPException(400, "File
    too large (max 10MB)")] inside the [try] block of its own handler; the
    [except Exception] clause catches it and raises the 500 in its place,
    with the text of the 400 embedded in the detail.  This holds on all
    three servers. *)
Theorem oversized_upload_is_answered_500
    (w : World) (session : Handle) (file : UploadFile) (p : Process) :
  len (read file) > MAX_UPLOAD ->
  let reply :=
    {| status := 500;
       reply_media_type := "application/json";
       reply_headers := [];
       body := JsonDetail ("Processing failed: "
                           ++ HTTPException_str w 400 "File too large (max 10MB)") |} in
  answer (V1.remove_background w session file p) = reply /\
  answer (V2.remove_background w file p) = reply /\
  answer (WithoutBG.remove_background w file p) = reply.
Proof.
  intros H reply.
  rewrite (V1_upload_rejected w session file p H).
  rewrite (V2_upload_rejected w file p H).
  rewrite (WithoutBG_upload_rejected w file p H).
  repeat split.
Qed.

Lemma oversized_upload_is_answered_500_witness :
  len (read (Sample.zeros (MAX_UPLOAD + 1))) > MAX_UPLOAD /\
  status (answer (V2.remove_background Sample.world (Sample.zeros (MAX_UPLOAD + 1)) fresh))
  = 500.
Proof.
  assert (H : len (read (Sample.zeros (MAX_UPLOAD + 1))) > MAX_UPLOAD).
  { rewrite len_zeros; unfold MAX_UPLOAD; lia. }
  split; [exact H |].
  destruct (oversized_upload_is_answered_500 Sample.world (handle_id 0)
              (Sample.zeros (MAX_UPLOAD + 1)) fresh H) as [_ [E _]].
  rewrite E. reflexivity.
Defined.

(** C10: an upload that the size check rejects leaves the process as it
    was: the rejection comes before the lazy initialisation, so no model is
    loaded, no library call is logged, and a fresh process stays without a
    model. *)
Theorem oversized_upload_leaves_model_unloaded
    (w : World) (file : UploadFile) (p : Process) :
  len (read file) > MAX_UPLOAD ->
  (snd (V2.remove_background w file p) = p /\
   snd (WithoutBG.remove_background w file p) = p) /\
  (global_model (snd (V2.remove_background w file fresh)) = None /\
   global_model (snd (WithoutBG.remove_background w file fresh)) = None) /\
  (log (snd (V2.remove_background w file fresh)) = [] /\
   log (snd (WithoutBG.remove_background w file fresh)) = []).
Proof.
  intros H.
  rewrite !(V2_upload_rejected w file _ H).
  rewrite !(WithoutBG_upload_rejected w file _ H).
  repeat split.
Qed.

Lemma oversized_upload_leaves_model_unloaded_witness :
  len (read (Sample.zeros (MAX_UPLOAD + 1))) > MAX_UPLOAD /\
  snd (V2.remove_background Sample.world (Sample.zeros (MAX_UPLOAD + 1)) fresh) = fresh /\
  snd (WithoutBG.remove_background Sample.world (Sample.zeros (MAX_UPLOAD + 1)) fresh) = fresh.
Proof.
  assert (H : len (read (Sample.zeros (MAX_UPLOAD + 1))) > MAX_UPLOAD).
  { rewrite len_zeros; unfold MAX_UPLOAD; lia. }
  split; [exact H |].
  exact (proj1 (oversized_upload_leaves_model_unloaded Sample.world
                  (Sample.zeros (MAX_UPLOAD + 1)) fresh H)).
Defined.

(** C8, as the code has it: an upload of exactly 10 * 1024 * 1024 bytes
    passes the size check of every upload handler, because the check is a
    strict [>].  What runs next differs by server.  On the first server it
    is the model call, [remove] on the uploaded bytes.  On the second it is
    the lazy [new_session] when the global is empty, and then [remove] when
    a session is at hand.  On the withoutBG server the bytes go to
    [Image.open] first: when they decode, [get_model] and
    [remove_background] follow; when they do not, the request is answered
    500 and the process is left as it was, with no model loaded or run. *)
Theorem boundary_upload_reaches_the_model (w : World) (file : UploadFile) :
  len (read file) = MAX_UPLOAD ->
  (forall session p,
     let r := remove_bytes w (log p) (read file) session in
     V1.remove_background w session file p =
     (or_failure w (Result_bind r (upload_response w file)),
      logged (call_remove_bytes (read file) session) r p)) /\
  (forall p,
     V2.remove_background w file p =
     match V2.session_or_new w p with
     | (Ok session, p1) =>
         let r := remove_bytes w (log p1) (read file) session in
         (or_failure w (Result_bind r (upload_response w file)),
          logged (call_remove_bytes (read file) session) r p1)
     | (Raise e, p1) => (Raise (failure w e), p1)
     end) /\
  (forall p,
     WithoutBG.remove_background w file p =
     match Image_open w (read file) with
     | Ok image =>
         match WithoutBG.get_model w p with
         | (Ok bg_model, p1) =>
             let r := WithoutBG_remove_background w (log p1) bg_model image in
             (or_failure w
                (Result_bind r (fun output_image =>
                   Result_bind (Image_save w output_image PIL.PNG None)
                               (upload_response w file))),
              logged (call_remove_background bg_model image) r p1)
         | (Raise e, p1) => (Raise (failure w e), p1)
         end
     | Raise e => (Raise (failure w e), p)
     end).
Proof.
  intros H.
  assert (Hle : len (read file) <= MAX_UPLOAD) by lia.
  split; [| split].
  - intros session p. apply V1_upload_accepted. exact Hle.
  - intros p. apply V2_upload_accepted. exact Hle.
  - intros p. apply WithoutBG_upload_accepted. exact Hle.
Qed.

Lemma boundary_upload_reaches_the_model_witness :
  len (read (Sample.zeros MAX_UPLOAD)) = MAX_UPLOAD /\
  List.length
    (log (snd (V1.remove_background Bulk.world (handle_id 0)
                 (Sample.zeros MAX_UPLOAD) fresh))) = 1%nat /\
  List.length
    (log (snd (V2.remove_background Bulk.world (Sample.zeros MAX_UPLOAD) fresh))) = 2%nat /\
  List.length
    (log (snd (WithoutBG.remove_background Bulk.world (Sample.zeros MAX_UPLOAD) fresh)))
  = 2%nat.
Proof.
  assert (H : len (read (Sample.zeros MAX_UPLOAD)) = MAX_UPLOAD).
  { rewrite len_zeros; unfold MAX_UPLOAD; lia. }
  split; [exact H |].
  destruct (boundary_upload_reaches_the_model Bulk.world (Sample.zeros MAX_UPLOAD) H)
    as [E1 [E2 E3]].
  rewrite E1, E2, E3. repeat split.
Defined.

(** Ten MiB of zero bytes are no image: on the withoutBG server the upload
    passes the size check and stops at [Image.open]; the reply is a 500 and
    no call of [WithoutBG.opensource] or [remove_background] is made. *)
Lemma boundary_upload_of_zeros_reaches_no_model :
  len (read (Sample.zeros MAX_UPLOAD)) = MAX_UPLOAD /\
  answer (WithoutBG.remove_background Sample.world (Sample.zeros MAX_UPLOAD) fresh)
  = {| status := 500;
       reply_media_type := "application/json";
       reply_headers := [];
       body := JsonDetail "Processing failed: cannot identify image file" |} /\
  snd (WithoutBG.remove_background Sample.world (Sample.zeros MAX_UPLOAD) fresh) = fresh /\
  calls is_load
    (log (snd (WithoutBG.remove_background Sample.world (Sample.zeros MAX_UPLOAD) fresh)))
  = 0%nat /\
  calls is_inference
    (log (snd (WithoutBG.remove_background Sample.world (Sample.zeros MAX_UPLOAD) fresh)))
  = 0%nat.
Proof.
  assert (H : len (read (Sample.zeros MAX_UPLOAD)) = MAX_UPLOAD).
  { rewrite len_zeros; unfold MAX_UPLOAD; lia. }
  split; [exact H |].
  assert (E : WithoutBG.remove_background Sample.world (Sample.zeros MAX_UPLOAD) fresh
              = (Raise (failure Sample.world
                          (Error "UnidentifiedImageError" "cannot identify image file")),
                 fresh)).
  { rewrite WithoutBG_upload_accepted by (rewrite H; lia).
    change (Image_open Sample.world (read (Sample.zeros MAX_UPLOAD)))
      with (Sample.open (repeat x00 (Z.to_nat MAX_UPLOAD))).
    rewrite open_zeros. reflexivity. }
  rewrite E. repeat split.
Qed.

(** ** Failures before the model *)




(** C5: when the GET of [image_url] raises, or answers with a status
    outside 2xx (404 for one), the URL handler of either server answers 500
    with a JSON body whose detail carries the error message.  The only
    library call it has made is that one [get], under the 30-second
    timeout: nothing is fetched a second time and no model is touched. *)
Theorem failed_fetch_is_answered_500
    (w : World) (image_url : string) (p : Process) :
  (exists e, get w (log p) image_url 30 = Raise e) \/
  (exists response,
     get w (log p) image_url 30 = Ok response /\ httpx.is_success response = false) ->
  exists e,
    let reply :=
      {| status := 500;
         reply_media_type := "application/json";
         reply_headers := [];
         body := JsonDetail ("Processing failed: " ++ str w e) |} in
    let p' := logged (call_get image_url 30) (get w (log p) image_url 30) p in
    (get w (log p) image_url 30 = Raise e \/
     exists response,
       get w (log p) image_url 30 = Ok response /\
       e = Error "HTTPStatusError" (HTTPStatusError_message w response)) /\
    (forall bgcolor,
       let request := V2.ImageUrlRequest.mk image_url bgcolor in
       answer (V2.remove_background_from_url w request p) = reply /\
       snd (V2.remove_background_from_url w request p) = p') /\
    (forall bgcolor model,
       let request := WithoutBG.ImageUrlRequest.mk image_url bgcolor model in
       answer (WithoutBG.remove_background_from_url w request p) = reply /\
       snd (WithoutBG.remove_background_from_url w request p) = p').
Proof.
  intros [[e H] | [response [H Hs]]].
  - exists e. split; [left; exact H |]. split.
    + intros bgcolor request.
      rewrite V2_from_url_factors. unfold V2.url_foreground.
      autounfold with handlers. simpl. rewrite H. split; reflexivity.
    + intros bgcolor model request.
      rewrite WithoutBG_from_url_factors. unfold WithoutBG.url_foreground.
      autounfold with handlers. simpl. rewrite H. split; reflexivity.
  - exists (Error "HTTPStatusError" (HTTPStatusError_message w response)).
    split; [right; exists response; split; [exact H | reflexivity] |]. split.
    + intros bgcolor request.
      rewrite V2_from_url_factors. unfold V2.url_foreground, raise_for_status.
      autounfold with handlers. simpl. rewrite H, Hs. split; reflexivity.
    + intros bgcolor model request.
      rewrite WithoutBG_from_url_factors. unfold WithoutBG.url_foreground, raise_for_status.
      autounfold with handlers. simpl. rewrite H, Hs. split; reflexivity.
Qed.

Lemma failed_fetch_is_answered_500_witness :
  ((exists e, get Sample.world (log fresh) "http://images/dog.png" 30 = Raise e) \/
   (exists response,
      get Sample.world (log fresh) "http://images/dog.png" 30 = Ok response /\
      httpx.is_success response = false)) /\
  V2.serve Sample.world
    (V2.POST_remove_bg_from_url (V2.ImageUrlRequest.mk "http://images/dog.png" None)) fresh
  = ({| status := 500;
        reply_media_type := "application/json";
        reply_headers := [];
        body := JsonDetail "Processing failed: Client error 404" |},
     {| global_model := None;
        log := [{| call := call_get "http://images/dog.png" 30; returned := true |}] |}).
Proof.
  assert (H : (exists e, get Sample.world (log fresh) "http://images/dog.png" 30 = Raise e) \/
              (exists response,
                 get Sample.world (log fresh) "http://images/dog.png" 30 = Ok response /\
                 httpx.is_success response = false)).
  { right. exists {| httpx.status_code := 404; httpx.content := [] |}.
    split; reflexivity. }
  split; [exact H |].
  destruct (failed_fetch_is_answered_500 Sample.world "http://images/dog.png" fresh H)
    as [e [He [E _]]].
  specialize (E None). cbv zeta in E. destruct E as [E1 E2].
  assert (e = Error "HTTPStatusError" "Client error 404") as ->.
  { destruct He as [He | [response [He ->]]].
    - discriminate He.
    - injection He as <-. reflexivity. }
  unfold V2.serve.
  destruct (V2.remove_background_from_url Sample.world
              (V2.ImageUrlRequest.mk "http://images/dog.png" None) fresh) as [r p'].
  unfold answer in E1. simpl in E1, E2. rewrite E1, E2. reflexivity.
Defined.

(** ** The successful upload *)




(** ** The compositing block *)

Lemma responds_encode_output (w : World) (bgcolor : option (list Z))
    (output_image : PIL.Image) (r : Result Response) :
  responds w bgcolor output_image r ->
  r = or_failure w (encode_output w bgcolor output_image).
Proof.
  intros [request p p' Hb Hf Hr | request p p' Hb Hf Hr
         | request p p' Hb Hf Hr | request p p' Hb Hf Hr].
  - rewrite V2_from_url_factors, Hf, Hb in Hr. congruence.
  - rewrite V2_from_base64_factors, Hf, Hb in Hr. congruence.
  - rewrite WithoutBG_from_url_factors, Hf, Hb in Hr. congruence.
  - rewrite WithoutBG_from_base64_factors, Hf, Hb in Hr. congruence.
Qed.

Lemma Mode_eqb_eq (a b : PIL.Mode) : PIL.Mode_eqb a b = true <-> a = b.
Proof. destruct a, b; simpl; split; congruence. Qed.

Lemma size_eqb_refl (sz : Z * Z) : PIL.size_eqb sz sz = true.
Proof. unfold PIL.size_eqb. now rewrite !Z.eqb_refl. Qed.

Lemma as_RGBA_mode (im : PIL.Image) : PIL.mode (as_RGBA im) = PIL.RGBA.
Proof. unfold as_RGBA, PIL.convert_RGBA. destruct im as [[] sz ps f]; reflexivity. Qed.

Lemma as_RGBA_size (im : PIL.Image) : PIL.size (as_RGBA im) = PIL.size im.
Proof. unfold as_RGBA, PIL.convert_RGBA. destruct im as [[] sz ps f]; reflexivity. Qed.

Lemma as_RGBA_length (im : PIL.Image) :
  List.length (PIL.pixels (as_RGBA im)) = List.length (PIL.pixels im).
Proof.
  unfold as_RGBA, PIL.convert_RGBA. destruct im as [[] sz ps f]; simpl;
    [apply length_map | reflexivity].
Qed.

(** A transparent pixel of the upper layer lets the canvas through. *)
Lemma composite_pixels_transparent (bg : PIL.Pixel) (n : nat) :
  forall (src : list PIL.Pixel) (i : nat) (px : PIL.Pixel),
    nth_error src i = Some px ->
    PIL.alpha px = 0 ->
    (i < n)%nat ->
    nth_error (PIL.composite_pixels (repeat bg n) src) i = Some bg.
Proof.
  induction n as [| n IH]; intros src i px Hnth Ha Hi; [lia |].
  destruct src as [| s src]; [destruct i; discriminate |].
  destruct i as [| i]; simpl in *.
  - injection Hnth as ->. unfold PIL.composite_pixel. rewrite Ha. reflexivity.
  - apply (IH src i px Hnth Ha). lia.
Qed.

Lemma convert_RGB_of_RGBA_nth (im : PIL.Image) (i : nat) (px : PIL.Pixel) :
  PIL.mode im = PIL.RGBA ->
  nth_error (PIL.pixels im) i = Some px ->
  option_map PIL.rgb (nth_error (PIL.pixels (PIL.convert_RGB im)) i) = Some (PIL.rgb px).
Proof.
  intros Hm Hnth. unfold PIL.convert_RGB. rewrite Hm. simpl.
  rewrite nth_error_map, Hnth. destruct px as [[[r g] b] a]. reflexivity.
Qed.

(** The block on [[255, 255, 255]]: whenever it returns, it has built the
    white canvas and composited over it. *)
Lemma new_RGBA_white (sz : Z * Z) (background : PIL.Image) :
  PIL.new_RGBA sz [255; 255; 255; 255] = Ok background ->
  background = {| PIL.mode := PIL.RGBA;
                  PIL.size := sz;
                  PIL.pixels := repeat white (Z.to_nat (fst sz * snd sz));
                  PIL.format := None |}.
Proof.
  unfold PIL.new_RGBA.
  destruct ((fst sz <? 0) || (snd sz <? 0)); [discriminate |].
  simpl. intros H. injection H as <-. reflexivity.
Qed.

Lemma composite_bgcolor_white (output_image composed : PIL.Image) :
  composite_bgcolor (Some [255; 255; 255]) output_image = Ok composed ->
  composited_on_white output_image composed.
Proof.
  unfold composite_bgcolor. simpl.
  fold (as_RGBA output_image). rewrite as_RGBA_size.
  destruct (PIL.new_RGBA (PIL.size output_image) [255; 255; 255; 255])
    as [background | e] eqn:Hnew; simpl; [| discriminate].
  pose proof (new_RGBA_white _ _ Hnew) as Hbg.
  destruct (PIL.alpha_composite background (as_RGBA output_image))
    as [over | e] eqn:Hover; simpl; [| discriminate].
  intros H. injection H as <-.
  exists background, over. rewrite Hbg at 2 3 4. simpl.
  repeat split; assumption.
Qed.

Lemma alpha_composite_Ok (im1 im2 over : PIL.Image) :
  PIL.alpha_composite im1 im2 = Ok over ->
  PIL.mode over = PIL.RGBA /\
  PIL.size over = PIL.size im1 /\
  PIL.pixels over = PIL.composite_pixels (PIL.pixels im1) (PIL.pixels im2).
Proof.
  unfold PIL.alpha_composite.
  destruct (negb _); [discriminate |].
  destruct (negb _); [discriminate |].
  intros H. injection H as <-. repeat split.
Qed.

(** Whatever [bgcolor] is, a handler that returns a [Response] has encoded
    the outcome of the compositing block. *)
Lemma responds_Ok (w : World) (bgcolor : option (list Z)) (output_image : PIL.Image)
    (resp : Response) :
  responds w bgcolor output_image (Ok resp) ->
  exists composed,
    composite_bgcolor bgcolor output_image = Ok composed /\
    Image_save w composed (if truthy bgcolor then PIL.JPEG else PIL.PNG) (Some 95)
      = Ok (content resp) /\
    media_type resp = (if truthy bgcolor then "image/jpeg" else "image/png").
Proof.
  intros H. apply responds_encode_output in H.
  unfold encode_output, Result_bind, or_failure in H.
  destruct (composite_bgcolor bgcolor output_image) as [composed | e]; [| discriminate].
  destruct (Image_save w composed _ (Some 95)) as [output_bytes | e] eqn:Hsave;
    [| discriminate].
  injection H as ->. exists composed. repeat split. exact Hsave.
Qed.








(** ** The lazily created model *)

Lemma loaded_app (h1 h2 : History) :
  loaded (h1 ++ h2)%list = (loaded h1 + loaded h2)%nat.
Proof. unfold loaded. now rewrite filter_app, length_app. Qed.

Lemma loads_app (h1 h2 : History) :
  loads (h1 ++ h2)%list = (loads h1 + loads h2)%nat.
Proof. unfold loads. now rewrite filter_app, length_app. Qed.

Lemma reuses_loads (s : Handle) (evs : History) : Forall (reuses s) evs -> loads evs = 0%nat.
Proof.
  induction 1 as [| ev evs [Hev _] _ IH]; [reflexivity |].
  unfold loads in *. simpl. now rewrite Hev.
Qed.

Lemma reuses_loaded (s : Handle) (evs : History) : Forall (reuses s) evs -> loaded evs = 0%nat.
Proof.
  induction 1 as [| ev evs [Hev _] _ IH]; [reflexivity |].
  unfold loaded in *. simpl. now rewrite Hev.
Qed.

Lemma lazy_step_refl (p : Process) : lazy_step p p.
Proof.
  exists []. split; [reflexivity |].
  destruct (global_model p); [split; [reflexivity | constructor] | now left].
Qed.

Lemma lazy_step_trans (p1 p2 p3 : Process) :
  lazy_step p1 p2 -> lazy_step p2 p3 -> lazy_step p1 p3.
Proof.
  intros [evs1 [E1 H1]] [evs2 [E2 H2]].
  exists (evs2 ++ evs1)%list. split; [rewrite E2, E1; apply app_assoc |].
  destruct (global_model p1) as [s |].
  - destruct H1 as [G1 F1]. rewrite G1 in H2. destruct H2 as [G2 F2].
    split; [exact G2 | apply Forall_app; split; assumption].
  - destruct H1 as [[G1 L1] | [s [G1 L1]]]; rewrite G1 in H2.
    + destruct H2 as [[G2 L2] | [s [G2 L2]]].
      * left. split; [exact G2 | rewrite loaded_app; lia].
      * right. exists s. split; [exact G2 | rewrite loaded_app; lia].
    + destruct H2 as [G2 F2]. right. exists s.
      split; [exact G2 | rewrite loaded_app, (reuses_loaded s evs2 F2); lia].
Qed.

Lemma lazy_step_consistent (p p' : Process) :
  lazy_step p p' -> cache_consistent p -> cache_consistent p'.
Proof.
  intros [evs [E H]] Hc. unfold cache_consistent in *. rewrite E, loaded_app.
  destruct (global_model p) as [s |].
  - destruct H as [-> F]. rewrite (reuses_loaded s evs F). lia.
  - destruct H as [[-> L] | [s [-> L]]]; lia.
Qed.

(** Finds the events that a handler has put in front of the log. *)
Ltac new_events :=
  first [ exists (@nil Event); split; [reflexivity |]
        | eexists [_]; split; [reflexivity |]
        | eexists [_; _]; split; [reflexivity |]
        | eexists [_; _; _]; split; [reflexivity |] ].

Ltac all_reuse :=
  repeat first [ apply Forall_nil
               | apply Forall_cons;
                 [split; [reflexivity | first [left; reflexivity | right; reflexivity]] |] ].

Ltac settle_step :=
  unfold lazy_step; simpl;
  repeat (next_answer; simpl);
  new_events; simpl;
  repeat match goal with
         | H : global_model _ = _ |- _ => rewrite H
         end;
  first [ split; [reflexivity | solve [all_reuse]]
        | left; split; reflexivity
        | right; eexists; split; reflexivity ].

Lemma V2_upload_step (w : World) (file : UploadFile) (p : Process) :
  lazy_step p (snd (V2.remove_background w file p)).
Proof.
  unfold V2.remove_background, V2.session_or_new. autounfold with handlers.
  unfold logged. settle_step.
Qed.

Lemma V2_from_url_state (w : World) (request : V2.ImageUrlRequest.t) (p : Process) :
  snd (V2.remove_background_from_url w request p) = snd (V2.url_foreground w request p).
Proof.
  rewrite V2_from_url_factors.
  destruct (V2.url_foreground w request p) as [[output_image | e] p1]; reflexivity.
Qed.

Lemma V2_from_base64_state (w : World) (request : V2.ImageBase64Request.t) (p : Process) :
  snd (V2.remove_background_from_base64 w request p)
  = snd (V2.base64_foreground w request p).
Proof.
  rewrite V2_from_base64_factors.
  destruct (V2.base64_foreground w request p) as [[output_image | e] p1]; reflexivity.
Qed.

Lemma WithoutBG_from_url_state (w : World) (request : WithoutBG.ImageUrlRequest.t)
    (p : Process) :
  snd (WithoutBG.remove_background_from_url w request p)
  = snd (WithoutBG.url_foreground w request p).
Proof.
  rewrite WithoutBG_from_url_factors.
  destruct (WithoutBG.url_foreground w request p) as [[output_image | e] p1]; reflexivity.
Qed.

Lemma WithoutBG_from_base64_state (w : World) (request : WithoutBG.ImageBase64Request.t)
    (p : Process) :
  snd (WithoutBG.remove_background_from_base64 w request p)
  = snd (WithoutBG.base64_foreground w request p).
Proof.
  rewrite WithoutBG_from_base64_factors.
  destruct (WithoutBG.base64_foreground w request p) as [[output_image | e] p1];
    reflexivity.
Qed.

Lemma V2_from_url_step (w : World) (request : V2.ImageUrlRequest.t) (p : Process) :
  lazy_step p (snd (V2.remove_background_from_url w request p)).
Proof.
  rewrite V2_from_url_state.
  unfold V2.url_foreground, V2.session_or_new. autounfold with handlers.
  unfold logged. settle_step.
Qed.

Lemma V2_from_base64_step (w : World) (request : V2.ImageBase64Request.t) (p : Process) :
  lazy_step p (snd (V2.remove_background_from_base64 w request p)).
Proof.
  rewrite V2_from_base64_state.
  unfold V2.base64_foreground, V2.session_or_new. autounfold with handlers.
  unfold logged. settle_step.
Qed.

Lemma WithoutBG_upload_step (w : World) (file : UploadFile) (p : Process) :
  lazy_step p (snd (WithoutBG.remove_background w file p)).
Proof.
  unfold WithoutBG.remove_background, WithoutBG.get_model. autounfold with handlers.
  unfold logged. settle_step.
Qed.

Lemma WithoutBG_from_url_step (w : World) (request : WithoutBG.ImageUrlRequest.t)
    (p : Process) :
  lazy_step p (snd (WithoutBG.remove_background_from_url w request p)).
Proof.
  rewrite WithoutBG_from_url_state.
  unfold WithoutBG.url_foreground, WithoutBG.get_model. autounfold with handlers.
  unfold logged. settle_step.
Qed.

Lemma WithoutBG_from_base64_step (w : World) (request : WithoutBG.ImageBase64Request.t)
    (p : Process) :
  lazy_step p (snd (WithoutBG.remove_background_from_base64 w request p)).
Proof.
  rewrite WithoutBG_from_base64_state.
  unfold WithoutBG.base64_foreground, WithoutBG.get_model. autounfold with handlers.
  unfold logged. settle_step.
Qed.

Lemma V2_serve_step (w : World) (rq : V2.Request) (p : Process) :
  lazy_step p (snd (V2.serve w rq p)).
Proof.
  destruct rq as [| | file | request | request]; unfold V2.serve.
  - apply lazy_step_refl.
  - apply lazy_step_refl.
  - pose proof (V2_upload_step w file p) as H.
    destruct (V2.remove_background w file p); exact H.
  - pose proof (V2_from_url_step w request p) as H.
    destruct (V2.remove_background_from_url w request p); exact H.
  - pose proof (V2_from_base64_step w request p) as H.
    destruct (V2.remove_background_from_base64 w request p); exact H.
Qed.

Lemma WithoutBG_serve_step (w : World) (rq : WithoutBG.Request) (p : Process) :
  lazy_step p (snd (WithoutBG.serve w rq p)).
Proof.
  destruct rq as [| | file | request | request]; unfold WithoutBG.serve.
  - apply lazy_step_refl.
  - apply lazy_step_refl.
  - pose proof (WithoutBG_upload_step w file p) as H.
    destruct (WithoutBG.remove_background w file p); exact H.
  - pose proof (WithoutBG_from_url_step w request p) as H.
    destruct (WithoutBG.remove_background_from_url w request p); exact H.
  - pose proof (WithoutBG_from_base64_step w request p) as H.
    destruct (WithoutBG.remove_background_from_base64 w request p); exact H.
Qed.

Lemma V2_run_step (w : World) (rqs : list V2.Request) :
  forall p, lazy_step p (snd (V2.run w rqs p)).
Proof.
  induction rqs as [| rq rqs IH]; intros p; simpl.
  - apply lazy_step_refl.
  - pose proof (V2_serve_step w rq p) as H1.
    destruct (V2.serve w rq p) as [reply p1]. simpl in H1.
    pose proof (IH p1) as H2.
    destruct (V2.run w rqs p1) as [replies p2]. simpl in *.
    exact (lazy_step_trans _ _ _ H1 H2).
Qed.

Lemma WithoutBG_run_step (w : World) (rqs : list WithoutBG.Request) :
  forall p, lazy_step p (snd (WithoutBG.run w rqs p)).
Proof.
  induction rqs as [| rq rqs IH]; intros p; simpl.
  - apply lazy_step_refl.
  - pose proof (WithoutBG_serve_step w rq p) as H1.
    destruct (WithoutBG.serve w rq p) as [reply p1]. simpl in H1.
    pose proof (IH p1) as H2.
    destruct (WithoutBG.run w rqs p1) as [replies p2]. simpl in *.
    exact (lazy_step_trans _ _ _ H1 H2).
Qed.

Lemma fresh_consistent : cache_consistent fresh.
Proof. reflexivity. Qed.

Lemma lazy_steps_created_once_then_reused {Rq : Type}
    (run : list Rq -> Process -> list HttpReply * Process) :
  (forall rqs p, lazy_step p (snd (run rqs p))) ->
  created_once_then_reused run.
Proof.
  intros Hstep. split.
  - intros rqs p.
    pose proof (lazy_step_consistent _ _ (Hstep rqs fresh) fresh_consistent) as Hc.
    fold p in Hc. unfold cache_consistent in Hc.
    destruct (global_model p) as [s |]; rewrite Hc.
    + split; [lia | split; [reflexivity | discriminate]].
    + split; [lia | split; [congruence | discriminate]].
  - intros rqs p s Hs p'.
    destruct (Hstep rqs p) as [evs [E H]]. fold p' in E, H. rewrite Hs in H.
    destruct H as [G F]. split; [exact G |]. split.
    + rewrite E, loads_app, (reuses_loads s evs F). reflexivity.
    + exists evs. split; assumption.
Qed.

(** C6: on either lazy server, in every sequence of requests handled one
    after the other by a fresh process, a model is created at most once,
    and the global holds a model exactly when one has been created; once
    the global holds a model, every later request keeps it, attempts no
    further creation and runs its inference on that model.  The first
    request that reaches the model step with the global still empty is the
    one that fills it, whichever route it takes (upload, URL or base64):
    the model that [new_session("u2netp")] (or [WithoutBG.opensource()])
    returns is stored in the global. *)
Theorem model_is_created_once_then_reused (w : World) :
  created_once_then_reused (V2.run w) /\
  created_once_then_reused (WithoutBG.run w) /\
  (forall file p s,
     global_model p = None ->
     len (read file) <= MAX_UPLOAD ->
     new_session w (log p) "u2netp" = Ok s ->
     let p' := snd (V2.remove_background w file p) in
     global_model p' = Some s /\ loaded (log p') = S (loaded (log p))) /\
  (forall file p image s,
     global_model p = None ->
     len (read file) <= MAX_UPLOAD ->
     Image_open w (read file) = Ok image ->
     WithoutBG_opensource w (log p) = Ok s ->
     let p' := snd (WithoutBG.remove_background w file p) in
     global_model p' = Some s /\ loaded (log p') = S (loaded (log p))) /\
  (forall image_url bgcolor p response image s,
     let p1 := logged (call_get image_url 30) (get w (log p) image_url 30) p in
     global_model p = None ->
     get w (log p) image_url 30 = Ok response ->
     httpx.is_success response = true ->
     Image_open w (httpx.content response) = Ok image ->
     new_session w (log p1) "u2netp" = Ok s ->
     let p' := snd (V2.remove_background_from_url w
                      (V2.ImageUrlRequest.mk image_url bgcolor) p) in
     global_model p' = Some s /\ loaded (log p') = S (loaded (log p))) /\
  (forall image_url bgcolor model p response image s,
     let p1 := logged (call_get image_url 30) (get w (log p) image_url 30) p in
     global_model p = None ->
     get w (log p) image_url 30 = Ok response ->
     httpx.is_success response = true ->
     Image_open w (httpx.content response) = Ok image ->
     WithoutBG_opensource w (log p1) = Ok s ->
     let p' := snd (WithoutBG.remove_background_from_url w
                      (WithoutBG.ImageUrlRequest.mk image_url bgcolor model) p) in
     global_model p' = Some s /\ loaded (log p') = S (loaded (log p))) /\
  (forall image_base64 bgcolor p data image s,
     global_model p = None ->
     base64.b64decode image_base64 = Ok data ->
     Image_open w data = Ok image ->
     new_session w (log p) "u2netp" = Ok s ->
     let p' := snd (V2.remove_background_from_base64 w
                      (V2.ImageBase64Request.mk image_base64 bgcolor) p) in
     global_model p' = Some s /\ loaded (log p') = S (loaded (log p))) /\
  (forall image_base64 bgcolor model p data image s,
     global_model p = None ->
     base64.b64decode image_base64 = Ok data ->
     Image_open w data = Ok image ->
     WithoutBG_opensource w (log p) = Ok s ->
     let p' := snd (WithoutBG.remove_background_from_base64 w
                      (WithoutBG.ImageBase64Request.mk image_base64 bgcolor model) p) in
     global_model p' = Some s /\ loaded (log p') = S (loaded (log p))).
Proof.
  split; [apply lazy_steps_created_once_then_reused; intros; apply V2_run_step |].
  split; [apply lazy_steps_created_once_then_reused; intros; apply WithoutBG_run_step |].
  split; [| split; [| split; [| split; [| split]]]].
  - intros file p s Hnone Hle Hnew p'. subst p'.
    rewrite (V2_upload_accepted w file p Hle).
    unfold V2.session_or_new. autounfold with handlers.
    rewrite Hnone, Hnew. simpl. split; reflexivity.
  - intros file p image s Hnone Hle Himage Hnew p'. subst p'.
    rewrite (WithoutBG_upload_accepted w file p Hle), Himage.
    unfold WithoutBG.get_model. autounfold with handlers.
    rewrite Hnone, Hnew. simpl. split; reflexivity.
  - intros image_url bgcolor p response image s p1 Hnone Hget Hs Himage Hnew p'.
    subst p' p1. rewrite V2_from_url_state.
    unfold V2.url_foreground, V2.session_or_new, raise_for_status.
    autounfold with handlers. simpl. rewrite Hget in *. rewrite Hs. simpl.
    rewrite Himage, Hnone, Hnew. simpl. split; reflexivity.
  - intros image_url bgcolor model p response image s p1 Hnone Hget Hs Himage Hnew p'.
    subst p' p1. rewrite WithoutBG_from_url_state.
    unfold WithoutBG.url_foreground, WithoutBG.get_model, raise_for_status.
    autounfold with handlers. simpl. rewrite Hget in *. rewrite Hs. simpl.
    rewrite Himage, Hnone, Hnew. simpl. split; reflexivity.
  - intros image_base64 bgcolor p data image s Hnone Hdecode Himage Hnew p'.
    subst p'. rewrite V2_from_base64_state.
    unfold V2.base64_foreground, V2.session_or_new.
    autounfold with handlers. simpl. rewrite Hdecode. simpl.
    rewrite Himage, Hnone, Hnew. simpl. split; reflexivity.
  - intros image_base64 bgcolor model p data image s Hnone Hdecode Himage Hnew p'.
    subst p'. rewrite WithoutBG_from_base64_state.
    unfold WithoutBG.base64_foreground, WithoutBG.get_model.
    autounfold with handlers. simpl. rewrite Hdecode. simpl.
    rewrite Himage, Hnone, Hnew. simpl. split; reflexivity.
Qed.

(** On a fresh process of the concrete world: a fetch followed by two
    uploads makes one creation, made by the fetch; and a base64 request is
    the one that loads the withoutBG model. *)
Lemma model_is_created_once_then_reused_witness :
  let p := snd (V2.run Sample.world
                  [V2.POST_remove_bg_from_url
                     (V2.ImageUrlRequest.mk "http://images/cat.png" None);
                   V2.POST_remove_bg Sample.upload;
                   V2.POST_remove_bg Sample.upload]
                  fresh) in
  (loaded (log p) <= 1)%nat /\ loads (log p) = 1%nat /\
  global_model p = Some (handle_id 1) /\
  global_model
    (snd (V2.remove_background_from_url Sample.world
            (V2.ImageUrlRequest.mk "http://images/cat.png" None) fresh))
  = Some (handle_id 1) /\
  global_model
    (snd (WithoutBG.remove_background_from_base64 Sample.world
            (WithoutBG.ImageBase64Request.mk Sample.picture_base64 None "withoutbg") fresh))
  = Some (handle_id 2).
Proof.
  intros p.
  destruct (model_is_created_once_then_reused Sample.world)
    as [[Honce _] [_ [_ [_ [Hurl [_ [_ Hbase64]]]]]]].
  split; [exact (proj1 (Honce _)) |].
  split; [reflexivity |]. split; [reflexivity |]. split.
  - exact (proj1 (Hurl "http://images/cat.png" None fresh
                    {| httpx.status_code := 200; httpx.content := Sample.picture_bytes |}
                    Sample.picture (handle_id 1)
                    eq_refl eq_refl eq_refl eq_refl eq_refl)).
  - exact (proj1 (Hbase64 Sample.picture_base64 None "withoutbg" fresh
                    Sample.picture_bytes Sample.picture (handle_id 2)
                    eq_refl eq_refl eq_refl eq_refl)).
Defined.

(** * Further properties of the handlers *)

(** ** Status codes *)

Lemma try_except_outcome {A : Type} (w : World) (m : M A) (p : Process) :
  match fst (try_except m (processing_failed w) p) with
  | Ok _ => True
  | Raise e => exists e0, e = failure w e0
  end.
Proof.
  unfold try_except, processing_failed, raise.
  destruct (m p) as [[a | e] p']; simpl; [exact I | now exists e].
Qed.

Lemma outcome_200_or_500 (w : World) (r : Result Response) :
  match r with Ok _ => True | Raise e => exists e0, e = failure w e0 end ->
  answered_200_or_500 (reply_of render_response r).
Proof.
  destruct r as [resp | e]; simpl.
  - intros _. left. split; [reflexivity |]. left. now exists (content resp).
  - intros [e0 ->]. right. split; [reflexivity |]. now exists (str w e0).
Qed.

Lemma dict_200 (d : list (string * Json)) : answered_200_or_500 (render_dict d).
Proof. left. split; [reflexivity |]. right. now exists d. Qed.

(** A handler seen as the [try] block that it is. *)
Ltac by_except w :=
  match goal with
  | |- context [try_except ?m (processing_failed w) ?p] =>
      let H := fresh "H" in
      pose proof (try_except_outcome w m p) as H;
      destruct (try_except m (processing_failed w) p) as [? ?];
      simpl in H |- *; apply (outcome_200_or_500 w); exact H
  end.


(** ** The health route of the withoutBG server *)

(** After any sequence of requests on a fresh withoutBG process, [GET
    /health] answers 200 with [model_loaded] true exactly when a call of
    [WithoutBG.opensource()] has returned during that sequence; asking does
    not load the model and leaves the process as it is. *)
Theorem health_tells_whether_a_model_was_created
    (w : World) (rqs : list WithoutBG.Request) :
  let p := snd (WithoutBG.run w rqs fresh) in
  WithoutBG.serve w WithoutBG.GET_health p =
  (render_dict [("status", JString "ok");
                ("model_loaded", JBool (Nat.eqb (loaded (log p)) 1))],
   p).
Proof.
  intros p.
  pose proof (lazy_step_consistent _ _ (WithoutBG_run_step w rqs fresh) fresh_consistent)
    as Hc.
  fold p in Hc. unfold cache_consistent in Hc.
  unfold WithoutBG.serve, WithoutBG.health. autounfold with handlers. simpl.
  destruct (global_model p); rewrite Hc; reflexivity.
Qed.

(** ** Failures of the model *)

Lemma loads_cons (ev : Event) (h : History) :
  loads (ev :: h) = ((if is_load (call ev) then 1 else 0) + loads h)%nat.
Proof. unfold loads. simpl. destruct (is_load (call ev)); reflexivity. Qed.

Lemma V2_upload_attempts_creation (w : World) (file : UploadFile) (p : Process) :
  len (read file) <= MAX_UPLOAD ->
  global_model p = None ->
  loads (log (snd (V2.remove_background w file p))) = S (loads (log p)).
Proof.
  intros Hle Hnone. rewrite (V2_upload_accepted w file p Hle).
  unfold V2.session_or_new. autounfold with handlers. rewrite Hnone.
  destruct (new_session w (log p) "u2netp"); simpl; rewrite ?loads_cons; reflexivity.
Qed.

Lemma WithoutBG_upload_attempts_creation (w : World) (file : UploadFile) (p : Process)
    (image : PIL.Image) :
  len (read file) <= MAX_UPLOAD ->
  Image_open w (read file) = Ok image ->
  global_model p = None ->
  loads (log (snd (WithoutBG.remove_background w file p))) = S (loads (log p)).
Proof.
  intros Hle Himage Hnone. rewrite (WithoutBG_upload_accepted w file p Hle), Himage.
  unfold WithoutBG.get_model. autounfold with handlers. rewrite Hnone.
  destruct (WithoutBG_opensource w (log p)); simpl; rewrite ?loads_cons; reflexivity.
Qed.

(** A creation that raises is not remembered.  An upload that finds the
    global empty and whose [new_session("u2netp")] (or
    [WithoutBG.opensource()]) raises is answered 500 with that error; the
    global stays empty, and every later upload that gets as far attempts the
    creation again. *)
Theorem failed_creation_is_retried (w : World) (file : UploadFile) (p : Process) :
  len (read file) <= MAX_UPLOAD ->
  global_model p = None ->
  (forall e,
     new_session w (log p) "u2netp" = Raise e ->
     let p' := logged (call_new_session "u2netp") (new_session w (log p) "u2netp") p in
     V2.remove_background w file p = (Raise (failure w e), p') /\
     global_model p' = None /\
     forall file',
       len (read file') <= MAX_UPLOAD ->
       loads (log (snd (V2.remove_background w file' p'))) = S (loads (log p'))) /\
  (forall image e,
     Image_open w (read file) = Ok image ->
     WithoutBG_opensource w (log p) = Raise e ->
     let p' := logged call_WithoutBG_opensource (WithoutBG_opensource w (log p)) p in
     WithoutBG.remove_background w file p = (Raise (failure w e), p') /\
     global_model p' = None /\
     forall file' image',
       len (read file') <= MAX_UPLOAD ->
       Image_open w (read file') = Ok image' ->
       loads (log (snd (WithoutBG.remove_background w file' p'))) = S (loads (log p'))).
Proof.
  intros Hle Hnone. split.
  - intros e Hnew p'. subst p'. split; [| split].
    + rewrite (V2_upload_accepted w file p Hle).
      unfold V2.session_or_new. autounfold with handlers.
      rewrite Hnone, Hnew. reflexivity.
    + exact Hnone.
    + intros file' Hle'. now apply V2_upload_attempts_creation.
  - intros image e Himage Hnew p'. subst p'. split; [| split].
    + rewrite (WithoutBG_upload_accepted w file p Hle), Himage.
      unfold WithoutBG.get_model. autounfold with handlers.
      rewrite Hnone, Hnew. reflexivity.
    + exact Hnone.
    + intros file' image' Hle' Himage'.
      now apply (WithoutBG_upload_attempts_creation w file' _ image').
Qed.

Lemma failed_creation_is_retried_witness :
  len (read Sample.upload) <= MAX_UPLOAD /\
  global_model fresh = None /\
  loads (log (snd (V2.remove_background Broken.world Sample.upload
                     (snd (V2.remove_background Broken.world Sample.upload fresh)))))
  = 2%nat /\
  global_model (snd (WithoutBG.remove_background Broken.world Sample.upload fresh)) = None.
Proof.
  assert (Hle : len (read Sample.upload) <= MAX_UPLOAD) by (vm_compute; discriminate).
  destruct (failed_creation_is_retried Broken.world Sample.upload fresh Hle eq_refl)
    as [T1 T2].
  split; [exact Hle |]. split; [reflexivity |]. split.
  - destruct (T1 _ eq_refl) as [E [_ Hretry]].
    rewrite E. cbn [snd]. rewrite (Hretry Sample.upload Hle). reflexivity.
  - destruct (T2 Sample.picture _ eq_refl eq_refl) as [E _]. rewrite E. reflexivity.
Defined.

(** An inference that raises costs the request, not the model: with a
    model in the global, an upload whose model call raises is answered 500
    with the model's message, the call is in the log, and the global still
    holds the same model. *)
Theorem failed_inference_keeps_the_model
    (w : World) (file : UploadFile) (p : Process) (s : Handle) :
  len (read file) <= MAX_UPLOAD ->
  global_model p = Some s ->
  (forall e,
     remove_bytes w (log p) (read file) s = Raise e ->
     let p' := logged (call_remove_bytes (read file) s)
                      (remove_bytes w (log p) (read file) s) p in
     V2.remove_background w file p = (Raise (failure w e), p') /\
     global_model p' = Some s) /\
  (forall image e,
     Image_open w (read file) = Ok image ->
     WithoutBG_remove_background w (log p) s image = Raise e ->
     let p' := logged (call_remove_background s image)
                      (WithoutBG_remove_background w (log p) s image) p in
     WithoutBG.remove_background w file p = (Raise (failure w e), p') /\
     global_model p' = Some s).
Proof.
  intros Hle Hs. split.
  - intros e Hmodel p'. subst p'. split; [| exact Hs].
    rewrite (V2_upload_accepted w file p Hle).
    unfold V2.session_or_new. autounfold with handlers.
    rewrite Hs. cbv zeta. rewrite Hmodel. reflexivity.
  - intros image e Himage Hmodel p'. subst p'. split; [| exact Hs].
    rewrite (WithoutBG_upload_accepted w file p Hle), Himage.
    unfold WithoutBG.get_model. autounfold with handlers.
    rewrite Hs. cbv zeta. rewrite Hmodel. reflexivity.
Qed.

Lemma failed_inference_keeps_the_model_witness :
  let p := {| global_model := Some (handle_id 7); log := [] |} in
  len (read Sample.upload) <= MAX_UPLOAD /\
  global_model p = Some (handle_id 7) /\
  status (answer (V2.remove_background Broken.world Sample.upload p)) = 500 /\
  global_model (snd (V2.remove_background Broken.world Sample.upload p))
  = Some (handle_id 7) /\
  global_model (snd (WithoutBG.remove_background Broken.world Sample.upload p))
  = Some (handle_id 7).
Proof.
  intros p.
  assert (Hle : len (read Sample.upload) <= MAX_UPLOAD) by (vm_compute; discriminate).
  destruct (failed_inference_keeps_the_model Broken.world Sample.upload p
              (handle_id 7) Hle eq_refl) as [T1 T2].
  destruct (T1 _ eq_refl) as [E1 G1].
  destruct (T2 Sample.picture _ eq_refl eq_refl) as [E2 G2].
  split; [exact Hle |]. split; [reflexivity |].
  rewrite E1, E2. repeat split.
Defined.

(** ** The URL route of bg-removal-server.py *)

Lemma V1_from_url_unfolded (w : World) (session : Handle) (image_url : string) (p : Process) :
  let g := get w (log p) image_url 30 in
  let p1 := logged (call_get image_url 30) g p in
  V1.remove_background_from_url w session image_url p =
  match g with
  | Ok response =>
      if httpx.is_success response then
        let r := remove_bytes w (log p1) (httpx.content response) session in
        (or_failure w
           (Result_map
              (fun output_data =>
                 {| content := output_data; media_type := "image/png"; headers := [] |})
              r),
         logged (call_remove_bytes (httpx.content response) session) r p1)
      else
        (Raise (failure w (Error "HTTPStatusError" (HTTPStatusError_message w response))),
         p1)
  | Raise e => (Raise (failure w e), p1)
  end.
Proof.
  unfold V1.remove_background_from_url, raise_for_status. autounfold with handlers.
  run_handler.
Qed.

(** On the first server too a fetch that raises, or answers outside 2xx,
    is answered 500 with the message of that very error (the exception of
    [get], or the [HTTPStatusError] that [raise_for_status] raises for the
    response), after exactly one [get] under the 30-second timeout and
    without the model being run. *)
Theorem V1_failed_fetch_is_answered_500
    (w : World) (session : Handle) (image_url : string) (p : Process) :
  (exists e, get w (log p) image_url 30 = Raise e) \/
  (exists response,
     get w (log p) image_url 30 = Ok response /\ httpx.is_success response = false) ->
  exists e,
    (get w (log p) image_url 30 = Raise e \/
     exists response,
       get w (log p) image_url 30 = Ok response /\
       e = Error "HTTPStatusError" (HTTPStatusError_message w response)) /\
    answer (V1.remove_background_from_url w session image_url p) =
    {| status := 500;
       reply_media_type := "application/json";
       reply_headers := [];
       body := JsonDetail ("Processing failed: " ++ str w e) |} /\
    snd (V1.remove_background_from_url w session image_url p) =
    logged (call_get image_url 30) (get w (log p) image_url 30) p.
Proof.
  intros [[e H] | [response [H Hs]]]; rewrite V1_from_url_unfolded; cbv zeta; rewrite H.
  - exists e. split; [left; reflexivity |]. split; reflexivity.
  - rewrite Hs. exists (Error "HTTPStatusError" (HTTPStatusError_message w response)).
    split; [right; exists response; split; reflexivity |]. split; reflexivity.
Qed.

Lemma V1_failed_fetch_is_answered_500_witness :
  ((exists e, get Sample.world (log fresh) "http://down/" 30 = Raise e) \/
   (exists response,
      get Sample.world (log fresh) "http://down/" 30 = Ok response /\
      httpx.is_success response = false)) /\
  answer (V1.remove_background_from_url Sample.world (handle_id 0) "http://down/" fresh)
  = {| status := 500;
       reply_media_type := "application/json";
       reply_headers := [];
       body := JsonDetail "Processing failed: All connection attempts failed" |} /\
  log (snd (V1.remove_background_from_url Sample.world (handle_id 0) "http://down/" fresh))
  = [{| call := call_get "http://down/" 30; returned := false |}].
Proof.
  assert (H : (exists e, get Sample.world (log fresh) "http://down/" 30 = Raise e) \/
              (exists response,
                 get Sample.world (log fresh) "http://down/" 30 = Ok response /\
                 httpx.is_success response = false)).
  { left. eexists. reflexivity. }
  split; [exact H |].
  destruct (V1_failed_fetch_is_answered_500 Sample.world (handle_id 0) "http://down/"
              fresh H) as [e [He [E1 E2]]].
  assert (e = Error "ConnectError" "All connection attempts failed") as ->.
  { destruct He as [He | [response [He _]]].
    - injection He as <-. reflexivity.
    - discriminate He. }
  rewrite E1, E2. split; reflexivity.
Defined.

(** A fetched image that the model handles is sent back as it comes from
    the model: status 200, [image/png], the model's bytes as the body, and
    no [Content-Disposition] header (only the upload route sets one). *)
Theorem V1_fetched_image_is_answered_with_the_model_output
    (w : World) (session : Handle) (image_url : string) (p : Process)
    (response : httpx.Response) (output_data : bytes) :
  let p1 := logged (call_get image_url 30) (get w (log p) image_url 30) p in
  get w (log p) image_url 30 = Ok response ->
  httpx.is_success response = true ->
  remove_bytes w (log p1) (httpx.content response) session = Ok output_data ->
  answer (V1.remove_background_from_url w session image_url p) =
  {| status := 200;
     reply_media_type := "image/png";
     reply_headers := [];
     body := ImageBody output_data |}.
Proof.
  intros p1 Hget Hs Hmodel. subst p1. rewrite V1_from_url_unfolded. cbv zeta.
  rewrite Hget in *. rewrite Hs, Hmodel. reflexivity.
Qed.

Lemma V1_fetched_image_is_answered_with_the_model_output_witness :
  get Sample.world (log fresh) "http://images/cat.png" 30
  = Ok {| httpx.status_code := 200; httpx.content := Sample.picture_bytes |} /\
  httpx.is_success {| httpx.status_code := 200; httpx.content := Sample.picture_bytes |}
  = true /\
  answer (V1.remove_background_from_url Sample.world (handle_id 0)
            "http://images/cat.png" fresh) =
  {| status := 200;
     reply_media_type := "image/png";
     reply_headers := [];
     body := ImageBody [x50; x04; x02; x01; xc8; x0a; x0a; xff; x14; x1e; x28; x00] |}.
Proof.
  split; [reflexivity |]. split; [reflexivity |].
  apply (V1_fetched_image_is_answered_with_the_model_output Sample.world (handle_id 0)
           "http://images/cat.png" fresh
           {| httpx.status_code := 200; httpx.content := Sample.picture_bytes |});
    reflexivity.
Defined.

(** ** Where the size cap applies *)

(** The 10 MiB cap guards the upload route only.  Bytes longer than the cap
    are refused when uploaded, and the process is left as it was; the same
    bytes fetched from a URL, or decoded from base64, are handed to the
    model. *)
Theorem size_cap_guards_uploads_only
    (w : World) (image_url : string) (p : Process) (response : httpx.Response) :
  let data := httpx.content response in
  let p1 := logged (call_get image_url 30) (get w (log p) image_url 30) p in
  len data > MAX_UPLOAD ->
  get w (log p) image_url 30 = Ok response ->
  httpx.is_success response = true ->
  (forall session file,
     read file = data ->
     snd (V1.remove_background w session file p) = p /\
     snd (V1.remove_background_from_url w session image_url p) =
     logged (call_remove_bytes data session) (remove_bytes w (log p1) data session) p1) /\
  (forall file bgcolor image s,
     read file = data ->
     Image_open w data = Ok image ->
     global_model p = Some s ->
     snd (V2.remove_background w file p) = p /\
     snd (V2.remove_background_from_url w (V2.ImageUrlRequest.mk image_url bgcolor) p) =
     logged (call_remove_image image s) (remove_image w (log p1) image s) p1) /\
  (forall file bgcolor model image s,
     read file = data ->
     Image_open w data = Ok image ->
     global_model p = Some s ->
     snd (WithoutBG.remove_background w file p) = p /\
     snd (WithoutBG.remove_background_from_url w
            (WithoutBG.ImageUrlRequest.mk image_url bgcolor model) p) =
     logged (call_remove_background s image)
            (WithoutBG_remove_background w (log p1) s image) p1) /\
  (forall image_base64 bgcolor image s,
     base64.b64decode image_base64 = Ok data ->
     Image_open w data = Ok image ->
     global_model p = Some s ->
     snd (V2.remove_background_from_base64 w
            (V2.ImageBase64Request.mk image_base64 bgcolor) p) =
     logged (call_remove_image image s) (remove_image w (log p) image s) p).
Proof.
  intros data p1 Hlen Hget Hs. subst data p1.
  split; [| split; [| split]].
  - intros session file Hread. split.
    + rewrite V1_upload_rejected; [reflexivity | congruence].
    + rewrite V1_from_url_unfolded. cbv zeta. rewrite Hget in *. rewrite Hs.
      reflexivity.
  - intros file bgcolor image s Hread Himage Hmodel. split.
    + rewrite V2_upload_rejected; [reflexivity | congruence].
    + rewrite V2_from_url_state.
      unfold V2.url_foreground, V2.session_or_new, raise_for_status.
      autounfold with handlers. simpl. rewrite Hget in *. rewrite Hs. simpl.
      rewrite Himage, Hmodel. reflexivity.
  - intros file bgcolor model image s Hread Himage Hmodel. split.
    + rewrite WithoutBG_upload_rejected; [reflexivity | congruence].
    + rewrite WithoutBG_from_url_state.
      unfold WithoutBG.url_foreground, WithoutBG.get_model, raise_for_status.
      autounfold with handlers. simpl. rewrite Hget in *. rewrite Hs. simpl.
      rewrite Himage, Hmodel. reflexivity.
  - intros image_base64 bgcolor image s Hdecode Himage Hmodel.
    rewrite V2_from_base64_state.
    unfold V2.base64_foreground, V2.session_or_new.
    autounfold with handlers. simpl. rewrite Hdecode. simpl.
    rewrite Himage, Hmodel. reflexivity.
Qed.

Lemma len_bulk_body : len Bulk.body > MAX_UPLOAD.
Proof. unfold Bulk.body. rewrite len_repeat; unfold MAX_UPLOAD; lia. Qed.

Lemma size_cap_guards_uploads_only_witness :
  let p := {| global_model := Some (handle_id 1); log := [] |} in
  let file := {| filename := "big.png"; content_type := "image/png"; read := Bulk.body |} in
  len Bulk.body > MAX_UPLOAD /\
  snd (V2.remove_background Bulk.world file p) = p /\
  log (snd (V2.remove_background_from_url Bulk.world
              (V2.ImageUrlRequest.mk "http://images/big.png" None) p)) =
  [{| call := call_remove_image Sample.picture (handle_id 1); returned := true |};
   {| call := call_get "http://images/big.png" 30; returned := true |}].
Proof.
  intros p file.
  destruct (size_cap_guards_uploads_only Bulk.world "http://images/big.png" p
              {| httpx.status_code := 200; httpx.content := Bulk.body |}
              len_bulk_body eq_refl eq_refl) as [_ [T _]].
  destruct (T file None Sample.picture (handle_id 1) eq_refl eq_refl eq_refl) as [E1 E2].
  split; [exact len_bulk_body |]. split; [exact E1 |].
  rewrite E2. reflexivity.
Defined.

(** ** Bytes that are not an image *)

(** Where a handler opens the image itself, bytes that [Image.open]
    rejects never reach the model: the withoutBG upload route, and the URL
    and base64 routes of both lazy servers, answer 500 with Pillow's message
    without loading or running a model. *)
Theorem undecodable_bytes_never_reach_the_model
    (w : World) (data : bytes) (e : exn) (p : Process) :
  Image_open w data = Raise e ->
  (forall file,
     read file = data ->
     len data <= MAX_UPLOAD ->
     WithoutBG.remove_background w file p = (Raise (failure w e), p)) /\
  (forall image_base64 bgcolor,
     base64.b64decode image_base64 = Ok data ->
     V2.remove_background_from_base64 w (V2.ImageBase64Request.mk image_base64 bgcolor) p
     = (Raise (failure w e), p)) /\
  (forall image_base64 bgcolor model,
     base64.b64decode image_base64 = Ok data ->
     WithoutBG.remove_background_from_base64 w
       (WithoutBG.ImageBase64Request.mk image_base64 bgcolor model) p
     = (Raise (failure w e), p)) /\
  (forall image_url bgcolor response,
     get w (log p) image_url 30 = Ok response ->
     httpx.is_success response = true ->
     httpx.content response = data ->
     V2.remove_background_from_url w (V2.ImageUrlRequest.mk image_url bgcolor) p
     = (Raise (failure w e),
        logged (call_get image_url 30) (get w (log p) image_url 30) p)) /\
  (forall image_url bgcolor model response,
     get w (log p) image_url 30 = Ok response ->
     httpx.is_success response = true ->
     httpx.content response = data ->
     WithoutBG.remove_background_from_url w
       (WithoutBG.ImageUrlRequest.mk image_url bgcolor model) p
     = (Raise (failure w e),
        logged (call_get image_url 30) (get w (log p) image_url 30) p)).
Proof.
  intros Hopen. split; [| split; [| split; [| split]]].
  - intros file Hread Hle. rewrite WithoutBG_upload_accepted by congruence.
    rewrite Hread, Hopen. reflexivity.
  - intros image_base64 bgcolor Hdecode.
    rewrite V2_from_base64_factors. unfold V2.base64_foreground.
    autounfold with handlers. simpl. rewrite Hdecode. simpl. rewrite Hopen. reflexivity.
  - intros image_base64 bgcolor model Hdecode.
    rewrite WithoutBG_from_base64_factors. unfold WithoutBG.base64_foreground.
    autounfold with handlers. simpl. rewrite Hdecode. simpl. rewrite Hopen. reflexivity.
  - intros image_url bgcolor response Hget Hs Hdata.
    rewrite V2_from_url_factors. unfold V2.url_foreground, raise_for_status.
    autounfold with handlers. simpl. rewrite Hget, Hs. simpl.
    rewrite Hdata, Hopen. reflexivity.
  - intros image_url bgcolor model response Hget Hs Hdata.
    rewrite WithoutBG_from_url_factors. unfold WithoutBG.url_foreground, raise_for_status.
    autounfold with handlers. simpl. rewrite Hget, Hs. simpl.
    rewrite Hdata, Hopen. reflexivity.
Qed.

Lemma undecodable_bytes_never_reach_the_model_witness :
  Image_open Sample.world [x00] = Sample.cannot_identify /\
  WithoutBG.serve Sample.world
    (WithoutBG.POST_remove_bg
       {| filename := "a.png"; content_type := "image/png"; read := [x00] |}) fresh
  = ({| status := 500;
        reply_media_type := "application/json";
        reply_headers := [];
        body := JsonDetail "Processing failed: cannot identify image file" |}, fresh) /\
  snd (V2.remove_background_from_base64 Sample.world
         (V2.ImageBase64Request.mk "AA==" None) fresh) = fresh.
Proof.
  destruct (undecodable_bytes_never_reach_the_model Sample.world [x00] _ fresh eq_refl)
    as [T1 [T2 _]].
  split; [reflexivity |]. split.
  - unfold WithoutBG.serve.
    rewrite (T1 {| filename := "a.png"; content_type := "image/png"; read := [x00] |}
               eq_refl); [reflexivity |].
    vm_compute. discriminate.
  - rewrite (T2 "AA==" None eq_refl). reflexivity.
Defined.

(** ** Which calls a route makes *)

Ltac only_events tac :=
  simpl; repeat (next_answer; simpl); new_events; simpl;
  repeat first [ apply Forall_nil | apply Forall_cons; [tac |] ].

(** The first server never creates a model while it serves: both of its
    handlers leave the global alone, and every call they log is a fetch or
    an inference on the session that was loaded at start-up. *)
Theorem V1_serves_with_its_startup_session (w : World) (session : Handle) (p : Process) :
  (forall file,
     let p' := snd (V1.remove_background w session file p) in
     global_model p' = global_model p /\
     exists evs, log p' = (evs ++ log p)%list /\ Forall (reuses session) evs) /\
  (forall image_url,
     let p' := snd (V1.remove_background_from_url w session image_url p) in
     global_model p' = global_model p /\
     exists evs, log p' = (evs ++ log p)%list /\ Forall (reuses session) evs).
Proof.
  split.
  - intros file p'. subst p'. unfold V1.remove_background. autounfold with handlers.
    unfold logged. simpl. split.
    + repeat (next_answer; simpl); reflexivity.
    + only_events ltac:(split; [reflexivity | first [left; reflexivity | right; reflexivity]]).
  - intros image_url p'. subst p'.
    unfold V1.remove_background_from_url, raise_for_status. autounfold with handlers.
    unfold logged. simpl. split.
    + repeat (next_answer; simpl); reflexivity.
    + only_events ltac:(split; [reflexivity | first [left; reflexivity | right; reflexivity]]).
Qed.

(** Only the URL route goes to the network: no upload handler and no base64
    handler, on any server, ever logs a [get]. *)
Theorem only_the_URL_route_fetches (w : World) (p : Process) :
  let quiet (p' : Process) :=
    exists evs,
      log p' = (evs ++ log p)%list /\ Forall (fun ev => is_get (call ev) = false) evs in
  (forall session file, quiet (snd (V1.remove_background w session file p))) /\
  (forall file, quiet (snd (V2.remove_background w file p))) /\
  (forall file, quiet (snd (WithoutBG.remove_background w file p))) /\
  (forall request, quiet (snd (V2.remove_background_from_base64 w request p))) /\
  (forall request, quiet (snd (WithoutBG.remove_background_from_base64 w request p))).
Proof.
  intros quiet. subst quiet. cbv beta. split; [| split; [| split; [| split]]].
  - intros session file. unfold V1.remove_background. autounfold with handlers.
    unfold logged. only_events reflexivity.
  - intros file. unfold V2.remove_background, V2.session_or_new.
    autounfold with handlers. unfold logged. only_events reflexivity.
  - intros file. unfold WithoutBG.remove_background, WithoutBG.get_model.
    autounfold with handlers. unfold logged. only_events reflexivity.
  - intros request. rewrite V2_from_base64_state.
    unfold V2.base64_foreground, V2.session_or_new.
    autounfold with handlers. unfold logged. only_events reflexivity.
  - intros request. rewrite WithoutBG_from_base64_state.
    unfold WithoutBG.base64_foreground, WithoutBG.get_model.
    autounfold with handlers. unfold logged. only_events reflexivity.
Qed.

(** * Further properties of the compositing block *)

Lemma len_cons {A : Type} (x : A) (l : list A) : len (x :: l) = 1 + len l.
Proof. unfold len. simpl List.length. lia. Qed.

Lemma composite_pixels_length (dst src : list PIL.Pixel) :
  List.length (PIL.composite_pixels dst src)
  = Nat.min (List.length dst) (List.length src).
Proof.
  revert src. induction dst as [| d dst IH]; intros [| s src]; simpl; auto.
Qed.

Lemma composite_pixels_nth (c : PIL.Pixel) (n : nat) :
  forall (src : list PIL.Pixel) (i : nat) (px : PIL.Pixel),
    nth_error src i = Some px ->
    (i < n)%nat ->
    nth_error (PIL.composite_pixels (repeat c n) src) i = Some (PIL.composite_pixel c px).
Proof.
  induction n as [| n IH]; intros src i px Hnth Hi; [lia |].
  destruct src as [| s src]; [destruct i; discriminate |].
  destruct i as [| i]; simpl in *.
  - now injection Hnth as ->.
  - apply (IH src i px Hnth). lia.
Qed.

Lemma parse_L_Ok (v v' : Z) : PIL.parse_L v = Ok v' -> v' = v.
Proof. unfold PIL.parse_L. destruct (PIL.fits_c_long_long v); congruence. Qed.

Lemma parse_i_Ok (v v' : Z) : PIL.parse_i v = Ok v' -> v' = v.
Proof.
  unfold PIL.parse_i.
  destruct (negb (PIL.fits_c_long_long v)); [discriminate |].
  destruct (v >? 2147483647); [discriminate |].
  destruct (v <? - 2147483648); congruence.
Qed.

Lemma parse_L_fits (v : Z) : PIL.fits_c_int v = true -> PIL.parse_L v = Ok v.
Proof.
  unfold PIL.fits_c_int, PIL.parse_L, PIL.fits_c_long_long. intros H.
  apply andb_true_iff in H. destruct H as [H1 H2].
  apply Z.leb_le in H1, H2.
  replace (- 9223372036854775808 <=? v) with true by (symmetry; apply Z.leb_le; lia).
  replace (v <=? 9223372036854775807) with true by (symmetry; apply Z.leb_le; lia).
  reflexivity.
Qed.

Lemma parse_i_fits (v : Z) : PIL.fits_c_int v = true -> PIL.parse_i v = Ok v.
Proof.
  unfold PIL.fits_c_int, PIL.parse_i, PIL.fits_c_long_long. intros H.
  apply andb_true_iff in H. destruct H as [H1 H2].
  apply Z.leb_le in H1, H2.
  replace (- 9223372036854775808 <=? v) with true by (symmetry; apply Z.leb_le; lia).
  replace (v <=? 9223372036854775807) with true by (symmetry; apply Z.leb_le; lia).
  replace (v >? 2147483647) with false
    by (symmetry; destruct (v >? 2147483647) eqn:E; [apply Z.gtb_lt in E; lia | reflexivity]).
  replace (v <? - 2147483648) with false by (symmetry; apply Z.ltb_ge; lia).
  reflexivity.
Qed.

Lemma new_RGBA_Ok (sz : Z * Z) (r g b a : Z) (background : PIL.Image) :
  PIL.new_RGBA sz [r; g; b; a] = Ok background ->
  background = {| PIL.mode := PIL.RGBA;
                  PIL.size := sz;
                  PIL.pixels := repeat (PIL.CLIP8 r, PIL.CLIP8 g, PIL.CLIP8 b, PIL.CLIP8 a)
                                       (Z.to_nat (fst sz * snd sz));
                  PIL.format := None |} /\
  0 <= fst sz /\ 0 <= snd sz.
Proof.
  unfold PIL.new_RGBA.
  destruct ((fst sz <? 0) || (snd sz <? 0)) eqn:Hneg; [discriminate |].
  destruct (PIL.parse_L r) as [r' |] eqn:Er; [| discriminate].
  destruct (PIL.parse_i g) as [g' |] eqn:Eg; [| discriminate].
  destruct (PIL.parse_i b) as [b' |] eqn:Eb; [| discriminate].
  destruct (PIL.parse_i a) as [a' |] eqn:Ea; [| discriminate].
  apply parse_L_Ok in Er. apply parse_i_Ok in Eg, Eb, Ea. subst. cbn [Result_bind].
  intros H. injection H as <-.
  apply orb_false_iff in Hneg. destruct Hneg as [Hw Hh].
  apply Z.ltb_ge in Hw, Hh. repeat split; assumption.
Qed.

(** The block, for a [bgcolor] of at least three elements, in terms of the
    canvas pixel that it paints. *)
Lemma composite_bgcolor_fill (l : list Z) (output_image composed : PIL.Image) :
  len l >= 3 ->
  composite_bgcolor (Some l) output_image = Ok composed ->
  exists over,
    PIL.mode over = PIL.RGBA /\
    PIL.size over = PIL.size output_image /\
    PIL.pixels over =
      PIL.composite_pixels
        (repeat (fill_pixel l)
                (Z.to_nat (PIL.width output_image * PIL.height output_image)))
        (PIL.pixels (as_RGBA output_image)) /\
    composed = PIL.convert_RGB over /\
    0 <= PIL.width output_image /\ 0 <= PIL.height output_image.
Proof.
  intros Hl. unfold composite_bgcolor.
  destruct l as [| r [| g [| b rest]]];
    try (exfalso; rewrite ?len_cons in Hl; unfold len in Hl; simpl in Hl; lia).
  assert (Hge : (len (r :: g :: b :: rest) >=? 3) = true) by (apply Z.geb_le; lia).
  rewrite Hge. cbn [truthy andb firstn app].
  fold (as_RGBA output_image). rewrite as_RGBA_size.
  unfold fill_pixel. cbn [nth].
  generalize (if len (r :: g :: b :: rest) >? 3 then nth 0 rest 0 else 255).
  intros a.
  destruct (PIL.new_RGBA (PIL.size output_image) [r; g; b; a])
    as [background |] eqn:Hnew; [| intros H; discriminate H].
  destruct (new_RGBA_Ok _ _ _ _ _ _ Hnew) as [-> [Hw Hh]].
  unfold Result_bind at 1. unfold PIL.alpha_composite. cbn [PIL.mode PIL.size PIL.pixels].
  rewrite as_RGBA_mode, as_RGBA_size, size_eqb_refl. simpl.
  intros H. injection H as <-.
  match goal with
  | |- exists over, _ /\ _ /\ _ /\ PIL.convert_RGB ?x = _ /\ _ => exists x
  end.
  repeat split; assumption.
Qed.

Lemma opaque_band_exact (v : Z) :
  0 <= v <= 255 -> Z.shiftr (PIL.SHIFTFORDIV255 (v * 32640 + 16384)) 7 = v.
Proof.
  intros Hv.
  assert (H : forallb (fun n => Z.shiftr (PIL.SHIFTFORDIV255 (Z.of_nat n * 32640 + 16384)) 7
                                =? Z.of_nat n) (seq 0 256) = true)
    by (vm_compute; reflexivity).
  rewrite forallb_forall in H.
  specialize (H (Z.to_nat v)). rewrite Z2Nat.id in H by lia.
  apply Z.eqb_eq, H, in_seq. lia.
Qed.

(** An opaque pixel of the upper layer hides the canvas, whatever the
    canvas holds. *)
Lemma composite_pixel_opaque (dst src : PIL.Pixel) :
  PIL.alpha src = 255 ->
  in_byte_range src ->
  PIL.composite_pixel dst src = (PIL.red src, PIL.green src, PIL.blue src, 255).
Proof.
  destruct src as [[[r g] b] a], dst as [[[dr dg] db] da].
  unfold in_byte_range. simpl. intros -> [Hr [Hg Hb]].
  unfold PIL.composite_pixel.
  simpl PIL.alpha. simpl PIL.red. simpl PIL.green. simpl PIL.blue.
  change (255 =? 0) with false. cbv iota zeta.
  replace (da * (255 - 255)) with 0 by lia.
  change (255 * 255 * 255 * Z.shiftl 1 PIL.PRECISION_BITS / (255 * 255 + 0)) with 32640.
  change (255 * Z.shiftl 1 PIL.PRECISION_BITS - 32640) with 0.
  change (Z.shiftl 128 PIL.PRECISION_BITS) with 16384.
  change (PIL.SHIFTFORDIV255 (255 * 255 + 0 + 128)) with 255.
  change PIL.PRECISION_BITS with 7.
  replace (r * 32640 + dr * 0 + 16384) with (r * 32640 + 16384) by lia.
  replace (g * 32640 + dg * 0 + 16384) with (g * 32640 + 16384) by lia.
  replace (b * 32640 + db * 0 + 16384) with (b * 32640 + 16384) by lia.
  rewrite !opaque_band_exact by assumption. reflexivity.
Qed.

Lemma convert_RGB_mode (im : PIL.Image) : PIL.mode (PIL.convert_RGB im) = PIL.RGB.
Proof. unfold PIL.convert_RGB. destruct (PIL.mode im); reflexivity. Qed.

Lemma convert_RGB_size (im : PIL.Image) : PIL.size (PIL.convert_RGB im) = PIL.size im.
Proof. unfold PIL.convert_RGB. destruct (PIL.mode im); reflexivity. Qed.

Lemma convert_RGB_format (im : PIL.Image) : PIL.format (PIL.convert_RGB im) = None.
Proof. unfold PIL.convert_RGB. destruct (PIL.mode im); reflexivity. Qed.

Lemma convert_RGB_length (im : PIL.Image) :
  List.length (PIL.pixels (PIL.convert_RGB im)) = List.length (PIL.pixels im).
Proof.
  unfold PIL.convert_RGB. destruct (PIL.mode im); simpl;
    [reflexivity | apply length_map].
Qed.

(** When the compositing block runs (three elements or more) and returns,
    its image has mode [RGB], no file format, and the size of the model's
    image; if the model's image carries one pixel per position, so does the
    result. *)
Theorem compositing_keeps_the_size
    (l : list Z) (output_image composed : PIL.Image) :
  len l >= 3 ->
  composite_bgcolor (Some l) output_image = Ok composed ->
  PIL.mode composed = PIL.RGB /\
  PIL.format composed = None /\
  PIL.size composed = PIL.size output_image /\
  (PIL.well_formed output_image -> PIL.well_formed composed).
Proof.
  intros Hl H.
  destruct (composite_bgcolor_fill l output_image composed Hl H)
    as [over [Hmode [Hsize [Hpixels [-> [Hw Hh]]]]]].
  split; [apply convert_RGB_mode |]. split; [apply convert_RGB_format |].
  split; [rewrite convert_RGB_size; exact Hsize |].
  intros [_ [_ Hlen]]. unfold PIL.well_formed, PIL.width, PIL.height in *.
  rewrite convert_RGB_size, Hsize. split; [exact Hw |]. split; [exact Hh |].
  unfold len in *. rewrite convert_RGB_length, Hpixels, composite_pixels_length.
  rewrite repeat_length, as_RGBA_length. lia.
Qed.

Lemma compositing_keeps_the_size_witness :
  len [0; 128; 300] >= 3 /\
  composite_bgcolor (Some [0; 128; 300]) (Sample.cut_out Sample.picture)
  = Ok {| PIL.mode := PIL.RGB;
          PIL.size := (2, 1);
          PIL.pixels := [(200, 10, 10, 255); (0, 128, 255, 255)];
          PIL.format := None |} /\
  PIL.well_formed {| PIL.mode := PIL.RGB;
                     PIL.size := (2, 1);
                     PIL.pixels := [(200, 10, 10, 255); (0, 128, 255, 255)];
                     PIL.format := None |}.
Proof.
  assert (Hl : len [0; 128; 300] >= 3) by (vm_compute; discriminate).
  assert (H : composite_bgcolor (Some [0; 128; 300]) (Sample.cut_out Sample.picture)
              = Ok {| PIL.mode := PIL.RGB;
                      PIL.size := (2, 1);
                      PIL.pixels := [(200, 10, 10, 255); (0, 128, 255, 255)];
                      PIL.format := None |}) by reflexivity.
  split; [exact Hl |]. split; [exact H |].
  apply (compositing_keeps_the_size _ _ _ Hl H).
  repeat split; vm_compute; discriminate.
Defined.

(** What the compositing block does to a pixel, for any fill colour: where
    the foreground is fully transparent the result is the fill colour, each
    element clipped to 0..255; where the foreground is fully opaque the
    result is the foreground's own colour. *)
Theorem compositing_fills_behind_the_foreground
    (l : list Z) (output_image composed : PIL.Image) :
  len l >= 3 ->
  composite_bgcolor (Some l) output_image = Ok composed ->
  PIL.well_formed output_image ->
  forall (i : nat) (px : PIL.Pixel),
    nth_error (PIL.pixels (as_RGBA output_image)) i = Some px ->
    (PIL.alpha px = 0 ->
     option_map PIL.rgb (nth_error (PIL.pixels composed) i)
     = Some (PIL.CLIP8 (nth 0 l 0), PIL.CLIP8 (nth 1 l 0), PIL.CLIP8 (nth 2 l 0))) /\
    (PIL.alpha px = 255 ->
     in_byte_range px ->
     option_map PIL.rgb (nth_error (PIL.pixels composed) i) = Some (PIL.rgb px)).
Proof.
  intros Hl H [_ [_ Hlen]] i px Hnth.
  destruct (composite_bgcolor_fill l output_image composed Hl H)
    as [over [Hmode [Hsize [Hpixels [-> _]]]]].
  assert (Hi : (i < Z.to_nat (PIL.width output_image * PIL.height output_image))%nat).
  { assert (Hlt : (i < List.length (PIL.pixels (as_RGBA output_image)))%nat)
      by (apply nth_error_Some; congruence).
    rewrite as_RGBA_length in Hlt. unfold len in Hlen. lia. }
  pose proof (composite_pixels_nth (fill_pixel l) _ _ i px Hnth Hi) as Hover.
  rewrite <- Hpixels in Hover.
  split.
  - intros Ha. unfold PIL.composite_pixel in Hover. rewrite Ha in Hover.
    exact (convert_RGB_of_RGBA_nth over i _ Hmode Hover).
  - intros Ha Hrange. rewrite (composite_pixel_opaque _ _ Ha Hrange) in Hover.
    exact (convert_RGB_of_RGBA_nth over i _ Hmode Hover).
Qed.

Lemma compositing_fills_behind_the_foreground_witness :
  len [0; 128; 300] >= 3 /\
  PIL.well_formed (Sample.cut_out Sample.picture) /\
  option_map PIL.rgb
    (nth_error [(200, 10, 10, 255); (0, 128, 255, 255)] 1) = Some (0, 128, 255) /\
  option_map PIL.rgb
    (nth_error [(200, 10, 10, 255); (0, 128, 255, 255)] 0) = Some (200, 10, 10).
Proof.
  assert (Hl : len [0; 128; 300] >= 3) by (vm_compute; discriminate).
  assert (Hwf : PIL.well_formed (Sample.cut_out Sample.picture))
    by (repeat split; vm_compute; discriminate).
  assert (H : composite_bgcolor (Some [0; 128; 300]) (Sample.cut_out Sample.picture)
              = Ok {| PIL.mode := PIL.RGB;
                      PIL.size := (2, 1);
                      PIL.pixels := [(200, 10, 10, 255); (0, 128, 255, 255)];
                      PIL.format := None |}) by reflexivity.
  split; [exact Hl |]. split; [exact Hwf |]. split.
  - apply (compositing_fills_behind_the_foreground _ _ _ Hl H Hwf 1%nat (20, 30, 40, 0));
      reflexivity.
  - apply (compositing_fills_behind_the_foreground _ _ _ Hl H Hwf 0%nat (200, 10, 10, 255));
      [reflexivity | reflexivity | repeat split; vm_compute; discriminate].
Defined.

(** Colour elements outside 0..255 do not make the block fail: for a
    [bgcolor] of at least three elements that fit a C [int], and a model
    image of non-negative size, the block returns an image. *)
Theorem compositing_accepts_any_C_int_colour (l : list Z) (output_image : PIL.Image) :
  len l >= 3 ->
  fill_fits l ->
  0 <= PIL.width output_image ->
  0 <= PIL.height output_image ->
  exists composed, composite_bgcolor (Some l) output_image = Ok composed.
Proof.
  intros Hl [Hr [Hg [Hb Ha]]] Hw Hh. unfold composite_bgcolor.
  destruct l as [| r [| g [| b rest]]];
    try (exfalso; rewrite ?len_cons in Hl; unfold len in Hl; simpl in Hl; lia).
  assert (Hge : (len (r :: g :: b :: rest) >=? 3) = true) by (apply Z.geb_le; lia).
  rewrite Hge. cbn [truthy andb firstn app].
  fold (as_RGBA output_image). rewrite as_RGBA_size.
  cbn [nth] in Hr, Hg, Hb, Ha.
  unfold PIL.new_RGBA.
  unfold PIL.width, PIL.height in Hw, Hh.
  apply Z.ltb_ge in Hw, Hh. rewrite Hw, Hh. cbn [orb].
  change (nth 3 (r :: g :: b :: rest) 0) with (nth 0 rest 0).
  rewrite (parse_L_fits r Hr), (parse_i_fits g Hg), (parse_i_fits b Hb),
    (parse_i_fits _ Ha). cbn [Result_bind].
  unfold PIL.alpha_composite. cbn [PIL.mode PIL.size PIL.pixels].
  rewrite as_RGBA_mode, as_RGBA_size, size_eqb_refl. simpl. eexists. reflexivity.
Qed.

Lemma compositing_accepts_any_C_int_colour_witness :
  len [-5; 128; 300; 1000] >= 3 /\
  fill_fits [-5; 128; 300; 1000] /\
  composite_bgcolor (Some [-5; 128; 300; 1000]) (Sample.cut_out Sample.picture)
  = Ok {| PIL.mode := PIL.RGB;
          PIL.size := (2, 1);
          PIL.pixels := [(200, 10, 10, 255); (0, 128, 255, 255)];
          PIL.format := None |}.
Proof.
  assert (Hl : len [-5; 128; 300; 1000] >= 3) by (vm_compute; discriminate).
  assert (Hf : fill_fits [-5; 128; 300; 1000]) by (repeat split).
  split; [exact Hl |]. split; [exact Hf |].
  destruct (compositing_accepts_any_C_int_colour [-5; 128; 300; 1000]
              (Sample.cut_out Sample.picture) Hl Hf)
    as [composed H]; [vm_compute; discriminate | vm_compute; discriminate |].
  reflexivity.
Defined.

Lemma composite_bgcolor_four (r g b a : Z) (rest : list Z) (output_image : PIL.Image) :
  composite_bgcolor (Some (r :: g :: b :: a :: rest)) output_image
  = composite_bgcolor (Some [r; g; b; a]) output_image.
Proof.
  unfold composite_bgcolor.
  assert (H3 : (len (r :: g :: b :: a :: rest) >=? 3) = true)
    by (apply Z.geb_le; rewrite !len_cons; pose proof (len_nonneg rest); lia).
  assert (H4 : (len (r :: g :: b :: a :: rest) >? 3) = true)
    by (apply Z.gtb_lt; rewrite !len_cons; pose proof (len_nonneg rest); lia).
  rewrite H3, H4. reflexivity.
Qed.

(** Of [bgcolor] the handlers read the first three elements as the colour
    and the fourth, if there is one, as the alpha of the canvas: a list of
    three elements behaves as the same list followed by 255, and elements
    after the fourth change nothing in the reply. *)
Theorem bgcolor_is_read_up_to_its_fourth_element
    (w : World) (r g b a : Z) (rest : list Z) (output_image : PIL.Image) :
  composite_bgcolor (Some [r; g; b]) output_image
  = composite_bgcolor (Some [r; g; b; 255]) output_image /\
  composite_bgcolor (Some (r :: g :: b :: a :: rest)) output_image
  = composite_bgcolor (Some [r; g; b; a]) output_image /\
  (forall outcome,
     responds w (Some [r; g; b]) output_image outcome ->
     outcome = or_failure w (encode_output w (Some [r; g; b; 255]) output_image)) /\
  (forall outcome,
     responds w (Some (r :: g :: b :: a :: rest)) output_image outcome ->
     outcome = or_failure w (encode_output w (Some [r; g; b; a]) output_image)).
Proof.
  split; [reflexivity |]. split; [apply composite_bgcolor_four |]. split.
  - intros outcome H. apply responds_encode_output in H. exact H.
  - intros outcome H. apply responds_encode_output in H. rewrite H.
    unfold encode_output. rewrite composite_bgcolor_four. reflexivity.
Qed.



(** * Further properties of the routes *)

Ltac count_events :=
  simpl; repeat (next_answer; simpl); new_events;
  unfold calls; simpl;
  (split; [lia | split; [lia | split; [lia |]]]);
  repeat first [apply Forall_nil | apply Forall_cons; [reflexivity |]].

(** Nothing is tried twice.  Whatever happens, one request makes at most
    one fetch, at most one attempt to create the model and at most one
    inference, and it makes no further library call after one that raised:
    of the calls that a request adds to the log, all but the last one
    returned. *)
Theorem no_call_is_repeated_within_a_request (w : World) (p : Process) :
  (forall rq, at_most_once_each p (snd (V2.serve w rq p))) /\
  (forall rq, at_most_once_each p (snd (WithoutBG.serve w rq p))) /\
  (forall session file,
     at_most_once_each p (snd (V1.remove_background w session file p))) /\
  (forall session image_url,
     at_most_once_each p (snd (V1.remove_background_from_url w session image_url p))).
Proof.
  unfold at_most_once_each. split; [| split; [| split]].
  - intros [| | file | request | request]; unfold V2.serve.
    + count_events.
    + count_events.
    + destruct (V2.remove_background w file p) as [r p'] eqn:E.
      change p' with (snd (r, p')). rewrite <- E.
      unfold V2.remove_background, V2.session_or_new. autounfold with handlers.
      unfold logged. count_events.
    + destruct (V2.remove_background_from_url w request p) as [r p'] eqn:E.
      change p' with (snd (r, p')). rewrite <- E, V2_from_url_state.
      unfold V2.url_foreground, V2.session_or_new, raise_for_status.
      autounfold with handlers. unfold logged. count_events.
    + destruct (V2.remove_background_from_base64 w request p) as [r p'] eqn:E.
      change p' with (snd (r, p')). rewrite <- E, V2_from_base64_state.
      unfold V2.base64_foreground, V2.session_or_new.
      autounfold with handlers. unfold logged. count_events.
  - intros [| | file | request | request]; unfold WithoutBG.serve.
    + count_events.
    + unfold WithoutBG.health. autounfold with handlers. count_events.
    + destruct (WithoutBG.remove_background w file p) as [r p'] eqn:E.
      change p' with (snd (r, p')). rewrite <- E.
      unfold WithoutBG.remove_background, WithoutBG.get_model. autounfold with handlers.
      unfold logged. count_events.
    + destruct (WithoutBG.remove_background_from_url w request p) as [r p'] eqn:E.
      change p' with (snd (r, p')). rewrite <- E, WithoutBG_from_url_state.
      unfold WithoutBG.url_foreground, WithoutBG.get_model, raise_for_status.
      autounfold with handlers. unfold logged. count_events.
    + destruct (WithoutBG.remove_background_from_base64 w request p) as [r p'] eqn:E.
      change p' with (snd (r, p')). rewrite <- E, WithoutBG_from_base64_state.
      unfold WithoutBG.base64_foreground, WithoutBG.get_model.
      autounfold with handlers. unfold logged. count_events.
  - intros session file. unfold V1.remove_background. autounfold with handlers.
    unfold logged. count_events.
  - intros session image_url.
    unfold V1.remove_background_from_url, raise_for_status. autounfold with handlers.
    unfold logged. count_events.
Qed.
